(** * poliastro.plotting._base: orbit plotter core and 2D frame mixin

    A shallow embedding of [BaseOrbitPlotter] and [Mixin2D] from
    [src/poliastro/plotting/_base.py].

    Conventions of the embedding:
    - Python floats (and astropy length quantities, expressed in km) are
      real numbers; [np.inf * u.km] is the extra point [Inf] of [Length].
      Unit conversions ([.to(u.km)]) are the identity on the represented
      length.
    - A method of the plotter is a computation of the monad [M]: it takes
      the plotter's state and returns either a value or the raised exception,
      together with the state as mutated up to that point (an exception does
      not roll mutations back).
    - The drawing hooks of a backend are a type class; they read the core
      fields and act on the backend's drawing surface.
    - Objects compared with [is] carry their identity ([body_id]). *)

From Stdlib Require Import Reals Lra List String ZArith Lia Bool RelationClasses
  Permutation.
Import ListNotations.

Open Scope R_scope.
Open Scope string_scope.

(** ** Exceptions and results *)

Inductive PyError : Type :=
| ValueError (msg : string)
| NotImplementedError (msg : string)
| AttributeError (msg : string)
| IndexError (msg : string)
| OtherError (msg : string).

Inductive Result (A : Type) : Type :=
| Ok (a : A)
| Err (e : PyError).

Arguments Ok {A} a.
Arguments Err {A} e.

Definition rbind {A B : Type} (r : Result A) (k : A -> Result B) : Result B :=
  match r with
  | Ok a => k a
  | Err e => Err e
  end.

(** [[f(x) for x in l]] where [f] may raise: evaluation goes left to right
    and stops at the first exception. *)
Fixpoint rmap {A B : Type} (f : A -> Result B) (l : list A) : Result (list B) :=
  match l with
  | [] => Ok []
  | x :: l' => rbind (f x) (fun y => rbind (rmap f l') (fun ys => Ok (y :: ys)))
  end.

(** ** Three-dimensional vectors *)

Record Vec3 : Type := mkVec { vx : R; vy : R; vz : R }.

Definition dot (a b : Vec3) : R :=
  vx a * vx b + vy a * vy b + vz a * vz b.

Definition vadd (a b : Vec3) : Vec3 :=
  mkVec (vx a + vx b) (vy a + vy b) (vz a + vz b).

Definition vsub (a b : Vec3) : Vec3 :=
  mkVec (vx a - vx b) (vy a - vy b) (vz a - vz b).

Definition vscale (k : R) (a : Vec3) : Vec3 :=
  mkVec (k * vx a) (k * vy a) (k * vz a).

(** Modelled from the spec: [poliastro.util.norm] is not among the sources;
    the spec calls [norm(position)] the distance of the position from the
    origin, and [_set_frame] uses it for the length of a vector.  The same
    Euclidean norm stands for astropy's [CartesianRepresentation.norm()]. *)
Definition norm (v : Vec3) : R := sqrt (dot v v).

(** ** Python's [min] and [max] *)

(** [min(a, b)] keeps [a] unless [b < a]; [max(a, b)] keeps [a] unless
    [b > a]. *)
Definition py_min2 (a b : R) : R := if Rlt_dec b a then b else a.
Definition py_max2 (a b : R) : R := if Rlt_dec a b then b else a.

Fixpoint py_min_from (cur : R) (l : list R) : R :=
  match l with
  | [] => cur
  | x :: l' => py_min_from (py_min2 cur x) l'
  end.

(** [min(l)] on a list: [ValueError] on the empty list. *)
Definition py_min (l : list R) : Result R :=
  match l with
  | [] => Err (ValueError "min() arg is an empty sequence")
  | x :: l' => Ok (py_min_from x l')
  end.

(** [a.min()] on a numpy array: [ValueError] on a zero-size array. *)
Definition np_min (l : list R) : Result R :=
  match l with
  | [] => Err (ValueError "zero-size array to reduction operation minimum which has no identity")
  | x :: l' => Ok (py_min_from x l')
  end.

(** Lengths with the point at infinity of [np.inf * u.km]. *)
Inductive Length : Type :=
| Fin (x : R)
| Inf.

(** [q * 0.5] for a length. *)
Definition length_scale (q : Length) (k : R) : Length :=
  match q with
  | Fin x => Fin (x * k)
  | Inf => Inf
  end.

(** [min(q, b)] with [b] finite: the result is finite. *)
Definition length_min2 (q : Length) (b : R) : R :=
  match q with
  | Fin x => py_min2 x b
  | Inf => b
  end.

Definition length_le (a b : Length) : Prop :=
  match a, b with
  | _, Inf => True
  | Inf, Fin _ => False
  | Fin x, Fin y => x <= y
  end.

(** [np.allclose(l, b)] with numpy's default tolerances. *)
Definition rtol : R := 1 / 100000.
Definition atol : R := 1 / 100000000.

Definition isclose (a b : R) : bool :=
  if Rle_dec (Rabs (a - b)) (atol + rtol * Rabs b) then true else false.

Definition allclose (l : list R) (b : R) : bool :=
  forallb (fun a => isclose a b) l.

(** ** Data model *)

(** A celestial body.  [body_id] is the identity of the Python object, the
    thing [is] compares; [body_R] is the physical radius in km. *)
#[warnings="-register-all"]
Inductive Body : Type :=
| mkBody (id : nat) (name : string) (radius : R) (parent : option Body).

Definition body_id (b : Body) : nat := let (i, _, _, _) := b in i.
Definition body_name (b : Body) : string := let (_, n, _, _) := b in n.
Definition body_R (b : Body) : R := let (_, _, r, _) := b in r.
Definition body_parent (b : Body) : option Body := let (_, _, _, p) := b in p.

(** [x is y] where either side may be [None]. *)
Definition obj_is (x y : option Body) : bool :=
  match x, y with
  | None, None => true
  | Some a, Some b => Nat.eqb (body_id a) (body_id b)
  | _, _ => false
  end.

(** Modelled from the spec: the enumeration [poliastro.frames.Planes] is not
    among the sources; the spec names an equatorial and an ecliptic plane. *)
Inductive Planes : Type := EARTH_EQUATOR | EARTH_ECLIPTIC.

(** An instant of time, in seconds from a fixed origin on the TDB scale. *)
Definition Time : Type := R.

Definition Frame : Type := (Vec3 * Vec3 * Vec3)%type.

Record Trajectory : Type := mkTrajectory {
  coordinates : list Vec3;
  position : option Vec3;
  label : string;
  colors : list string;
  dashed : bool
}.

(** What the plotter reads from an orbit object. *)
Record Orbit : Type := mkOrbit {
  orbit_attractor : Body;
  orbit_epoch : Time;
  orbit_r : Vec3;
  orbit_sample : Z -> Result (list Vec3);
  orbit_pqw : Frame
}.

(** The fields of a plotter ([_frame] belongs to [Mixin2D]). *)
Record Core : Type := mkCore {
  _num_points : Z;
  _trajectories : list Trajectory;
  _attractor : option Body;
  _plane : Planes;
  _attractor_radius : Length;
  _frame : option Frame
}.

Definition with_trajectories (ts : list Trajectory) (c : Core) : Core :=
  mkCore (_num_points c) ts (_attractor c) (_plane c) (_attractor_radius c) (_frame c).

Definition with_attractor (a : option Body) (c : Core) : Core :=
  mkCore (_num_points c) (_trajectories c) a (_plane c) (_attractor_radius c) (_frame c).

Definition with_attractor_radius (r : Length) (c : Core) : Core :=
  mkCore (_num_points c) (_trajectories c) (_attractor c) (_plane c) r (_frame c).

Definition with_frame (f : option Frame) (c : Core) : Core :=
  mkCore (_num_points c) (_trajectories c) (_attractor c) (_plane c) (_attractor_radius c) f.

(** A plotter: its core fields and the drawing surface of its backend. *)
Record Plotter (B : Type) : Type := mkPlotter {
  core : Core;
  surface : B
}.

Arguments mkPlotter {B} core surface.
Arguments core {B} p.
Arguments surface {B} p.

(** ** The drawing hooks of a backend *)

(** The abstract methods of [BaseOrbitPlotter].  A hook reads the core,
    acts on the surface, and returns a trace or raises.  [class_name] is
    [type(self).__name__], the name Python prints when an attribute of the
    plotter is missing. *)
Class Backend (B T : Type) : Type := {
  class_name : string;
  _clear_attractor : Core -> B -> Result unit * B;
  _get_colors : option string -> bool -> Core -> B -> Result (list string) * B;
  _draw_point : R -> string -> string -> option Vec3 -> Core -> B -> Result T * B;
  _draw_sphere : R -> string -> string -> option Vec3 -> Core -> B -> Result T * B;
  _plot_coordinates :
    list Vec3 -> string -> list string -> bool -> Core -> B -> Result T * B
}.

(** The base class itself: every hook raises [NotImplementedError]. *)
#[local] Instance base_hooks : Backend unit unit := {
  class_name := "BaseOrbitPlotter";
  _clear_attractor := fun _ b => (Err (NotImplementedError ""), b);
  _get_colors := fun _ _ _ b => (Err (NotImplementedError ""), b);
  _draw_point := fun _ _ _ _ _ b => (Err (NotImplementedError ""), b);
  _draw_sphere := fun _ _ _ _ _ b => (Err (NotImplementedError ""), b);
  _plot_coordinates := fun _ _ _ _ _ b => (Err (NotImplementedError ""), b)
}.

(** ** Collaborators outside this module *)

(** The functions of other modules and libraries that the plotter calls.
    Each may raise. *)
Class Collaborators : Type := {
  (** [BODY_COLORS.get(name)] *)
  BODY_COLORS : string -> option string;
  (** [generate_label(epoch, label)] *)
  generate_label : Time -> option string -> string;
  (** [orbit.change_plane(plane)] *)
  change_plane : Orbit -> Planes -> Result Orbit;
  (** [get_mean_elements(body, epoch).period], in seconds *)
  mean_period : Body -> Time -> Result R;
  (** [str(body)] *)
  body_str : Body -> string;
  (** the position [Ephem.from_body(body, epochs, attractor, plane)] holds
      for one epoch *)
  ephem_position : Body -> option Body -> Planes -> Time -> Result Vec3;
  (** [Orbit.from_body_ephem(body, epoch)] *)
  from_body_ephem : Body -> option Time -> Result Orbit
}.

(** ** The monad of plotter methods *)

Definition M (S A : Type) : Type := S -> Result A * S.

Definition ret {S A : Type} (a : A) : M S A := fun s => (Ok a, s).

Definition raise {S A : Type} (e : PyError) : M S A := fun s => (Err e, s).

Definition bind {S A B : Type} (m : M S A) (k : A -> M S B) : M S B :=
  fun s =>
    match m s with
    | (Ok a, s') => k a s'
    | (Err e, s') => (Err e, s')
    end.

Declare Scope py_scope.
Delimit Scope py_scope with py.

Notation "x <- c1 ;; c2" := (bind c1 (fun x => c2))
  (at level 61, c1 at next level, right associativity) : py_scope.
Notation "c1 ;; c2" := (bind c1 (fun _ => c2))
  (at level 61, right associativity) : py_scope.

Open Scope py_scope.

Definition lift_result {S A : Type} (r : Result A) : M S A := fun s => (r, s).

(** [for x in l: f(x)] *)
Fixpoint for_each {S A : Type} (f : A -> M S unit) (l : list A) : M S unit :=
  match l with
  | [] => ret tt
  | x :: l' => f x ;; for_each f l'
  end.

Definition get_self {B : Type} : M (Plotter B) Core := fun s => (Ok (core s), s).

Definition update_self {B : Type} (f : Core -> Core) : M (Plotter B) unit :=
  fun s => (Ok tt, mkPlotter (f (core s)) (surface s)).

Definition call_hook {B X : Type} (h : Core -> B -> Result X * B) : M (Plotter B) X :=
  fun s => let (r, b) := h (core s) (surface s) in (r, mkPlotter (core s) b).

(** [obj.attr] where [obj] may be [None]. *)
Definition attr_of {S A : Type} (o : option A) (attr : string) : M S A :=
  match o with
  | Some a => ret a
  | None => raise (AttributeError ("'NoneType' object has no attribute '" ++ attr ++ "'"))
  end.

(** [l[0]] for a Python list [l]. *)
Definition item0 {S A : Type} (l : list A) : M S A :=
  match l with
  | x :: _ => ret x
  | [] => raise (IndexError "list index out of range")
  end.

(** [a[0]] for an array [a] with one item per row: numpy raises for an
    array without rows. *)
Definition array_item0 {S A : Type} (a : list A) : M S A :=
  match a with
  | x :: _ => ret x
  | [] => raise (IndexError "index 0 is out of bounds for axis 0 with size 0")
  end.

(** [str(label)] for an optional string. *)
Definition py_str (label : option string) : string :=
  match label with
  | Some s => s
  | None => "None"
  end.

(** Truthiness of an optional string: [None] and the empty string are false. *)
Definition truthy (s : option string) : bool :=
  match s with
  | None => false
  | Some "" => false
  | Some _ => true
  end.

(** Modelled from the spec: [poliastro.util.time_range] is not among the
    sources; the spec describes its result as an evenly spaced time range of
    [periods] instants that starts at [start] and spans up to [end].  The
    [i]-th instant is [start + (end - start) * i / (periods - 1)]; a range
    of one instant is [start] alone. *)
Definition time_range (start : Time) (periods : Z) (end_ : Time) : Result (list Time) :=
  if (periods <? 0)%Z then Err (ValueError "Number of samples must be non-negative")
  else
    match Z.to_nat periods with
    | 1%nat => Ok [start]
    | n => Ok (map (fun i => start + (end_ - start) * (INR i / INR (n - 1))) (seq 0 n))
    end.

(** Modelled from the spec: [poliastro.ephem.Ephem] is not among the
    sources; the spec says the ephemeris of the body is sampled to get
    Cartesian coordinates across the time range: one position per instant,
    in the order of the instants. *)
Definition ephem_sample `{Collaborators} (body : Body) (epochs : list Time)
  (attractor : option Body) (plane : Planes) : Result (list Vec3) :=
  rmap (ephem_position body attractor plane) epochs.

(** ** BaseOrbitPlotter *)

(** A method of a plotter whose backend draws on a surface of type [B]. *)
Definition Method (B A : Type) : Type := M (Plotter B) A.

(** [__init__(num_points=150, *, plane=None)] *)
Definition __init__ {B : Type} (num_points : option Z) (plane : option Planes)
  (b : B) : Plotter B :=
  mkPlotter
    (mkCore
       (match num_points with Some n => n | None => 150%Z end)
       []
       None
       (match plane with Some p => p | None => EARTH_EQUATOR end)
       Inf
       None)
    b.

Section Methods.

Context {B T : Type} `{Backend B T} `{Collaborators}.

Definition trajectories (self : Plotter B) : list Trajectory :=
  _trajectories (core self).

Definition plane (self : Plotter B) : Planes := _plane (core self).

Definition _set_attractor (attractor : option Body) : Method B unit :=
  self <- get_self ;;
  match _attractor self with
  | None => update_self (with_attractor attractor)
  | Some current =>
      if negb (obj_is attractor (Some current)) then
        raise (NotImplementedError
                 ("Attractor has already been set to " ++ body_name current))
      else ret tt
  end.

Definition set_attractor (attractor : option Body) : Method B unit :=
  _set_attractor attractor.

Definition _redraw_attractor : Method B unit :=
  self <- get_self ;;
  distances <- lift_result
    (rmap (fun t => np_min (map norm (coordinates t))) (_trajectories self)) ;;
  min_distance <- lift_result
    (py_min (match distances with [] => [0] | _ => distances end)) ;;
  attractor <- attr_of (_attractor self) "R" ;;
  let radius := py_max2 (body_R attractor) (min_distance * (15 / 100)) in
  update_self (with_attractor_radius (Fin radius)) ;;
  let color :=
    match BODY_COLORS (body_name attractor) with
    | Some c => c
    | None => "#999999"
    end in
  call_hook _clear_attractor ;;
  call_hook (_draw_sphere radius color (body_name attractor) None) ;;
  ret tt.

Definition _plot_position (position : Vec3) (label : string)
  (colors : list string) : Method B T :=
  self <- get_self ;;
  attractor <- attr_of (_attractor self) "R" ;;
  let radius :=
    length_min2 (length_scale (_attractor_radius self) (1 / 2))
      ((norm position - body_R attractor) * (1 / 2)) in
  color <- item0 colors ;;
  call_hook (_draw_point radius color label (Some position)).

Definition __plot_coordinates_and_position (trajectory : Trajectory)
  : Method B (T * option T) :=
  trace_coordinates <- call_hook
    (_plot_coordinates (coordinates trajectory) (label trajectory)
       (colors trajectory) (dashed trajectory)) ;;
  match position trajectory with
  | Some position =>
      trace_position <- _plot_position position (label trajectory)
                          (colors trajectory) ;;
      ret (trace_coordinates, Some trace_position)
  | None => ret (trace_coordinates, None)
  end.

Definition _redraw : Method B unit :=
  self <- get_self ;;
  for_each (fun trajectory => __plot_coordinates_and_position trajectory ;; ret tt)
    (_trajectories self).

Definition __add_trajectory (coordinates : list Vec3) (position : option Vec3)
  (label : string) (colors : list string) (dashed : bool)
  : Method B (T * option T) :=
  let trajectory := mkTrajectory coordinates position label colors dashed in
  update_self (fun self => with_trajectories (_trajectories self ++ [trajectory]) self) ;;
  _redraw_attractor ;;
  __plot_coordinates_and_position trajectory.

(** The coordinates are given as a [CartesianRepresentation], on which
    [represent_as(CartesianRepresentation)] is the identity. *)
Definition _plot_trajectory (coordinates : list Vec3) (label color : option string)
  (trail : bool) : Method B (T * option T) :=
  self <- get_self ;;
  match _attractor self with
  | None =>
      raise (ValueError
               ("An attractor must be set up first, please use "
                ++ "set_attractor(Major_Body) or plot(orbit)"))
  | Some _ =>
      colors <- call_hook (_get_colors color trail) ;;
      __add_trajectory coordinates None (py_str label) colors false
  end.

Definition _plot (orbit : Orbit) (label color : option string) (trail : bool)
  : Method B (T * option T) :=
  colors <- call_hook (_get_colors color trail) ;;
  set_attractor (Some (orbit_attractor orbit)) ;;
  self <- get_self ;;
  orbit <- lift_result (change_plane orbit (_plane self)) ;;
  let label := generate_label (orbit_epoch orbit) label in
  coordinates <- lift_result (orbit_sample orbit (_num_points self)) ;;
  __add_trajectory coordinates (Some (orbit_r orbit)) label colors true.

(** [label or str(body)] falls back to [str(body)] for [None] and for the
    empty string. *)
Definition _plot_body_orbit (body : Body) (epoch : Time)
  (label color : option string) (trail : bool) : Method B (T * option T) :=
  let color :=
    match color with
    | None => BODY_COLORS (body_name body)
    | Some c => Some c
    end in
  colors <- call_hook (_get_colors color trail) ;;
  set_attractor (body_parent body) ;;
  period <- lift_result (mean_period body epoch) ;;
  let label :=
    generate_label epoch (if truthy label then label else Some (body_str body)) in
  self <- get_self ;;
  epochs <- lift_result (time_range epoch (_num_points self) (epoch + period)) ;;
  coordinates <- lift_result
    (ephem_sample body epochs (body_parent body) (_plane self)) ;;
  r0 <- array_item0 coordinates ;;
  __add_trajectory coordinates (Some r0) label colors false.

Definition plot_trajectory (coordinates : list Vec3) (label color : option string)
  (trail : bool) : Method B unit :=
  _plot_trajectory coordinates label color trail ;; ret tt.

Definition plot (orbit : Orbit) (label color : option string) (trail : bool)
  : Method B unit :=
  _plot orbit label color trail ;; ret tt.

Definition plot_body_orbit (body : Body) (epoch : Time)
  (label color : option string) (trail : bool) : Method B unit :=
  _plot_body_orbit body epoch label color trail ;; ret tt.

(** ** Mixin2D *)

(** The mixin is part of a plotter class that also derives from
    [BaseOrbitPlotter]: [self._redraw()] is the plotter's [_redraw], and
    [_frame] is unset until [_set_frame] stores one. *)

(** [self._frame]: the mixin never initialises the attribute, so that
    reading it before [_set_frame] has stored a frame raises the
    [AttributeError] of a missing attribute of the plotter object. *)
Definition get_frame : Method B Frame :=
  self <- get_self ;;
  match _frame self with
  | Some frame => ret frame
  | None =>
      raise (AttributeError
               ("'" ++ class_name ++ "' object has no attribute '_frame'"))
  end.

(** [rr] is an array of points, one per row; the result is the pair of the
    arrays of their first and second plane coordinates. *)
Definition _project (rr : list Vec3) : Method B (list R * list R) :=
  frame <- get_frame ;;
  let '(p_vec, q_vec, w_vec) := frame in
  let rr_proj := map (fun r => vsub r (vscale (dot r w_vec) w_vec)) rr in
  let x := map (fun r => dot r p_vec) rr_proj in
  let y := map (fun r => dot r q_vec) rr_proj in
  ret (x, y).

Definition _set_frame (p_vec q_vec w_vec : Vec3) : Method B unit :=
  (if negb (allclose (map norm [p_vec; q_vec; w_vec]) 1) then
     raise (ValueError "Vectors must be unit.")
   else if negb (allclose [dot p_vec q_vec; dot q_vec w_vec; dot w_vec p_vec] 0) then
     raise (ValueError "Vectors must be mutually orthogonal.")
   else update_self (with_frame (Some (p_vec, q_vec, w_vec)))) ;;
  self <- get_self ;;
  match _trajectories self with
  | [] => ret tt
  | _ :: _ => _redraw
  end.

(** The deprecation warning [set_frame] issues changes no state. *)
Definition set_frame (p_vec q_vec w_vec : Vec3) : Method B unit :=
  _set_frame p_vec q_vec w_vec.

Definition set_orbit_frame (orbit : Orbit) : Method B unit :=
  let '(p_vec, q_vec, w_vec) := orbit_pqw orbit in
  _set_frame p_vec q_vec w_vec.

Definition set_body_frame (body : Body) (epoch : option Time) : Method B unit :=
  self <- get_self ;;
  orbit <- lift_result (from_body_ephem body epoch) ;;
  orbit <- lift_result (change_plane orbit (_plane self)) ;;
  set_orbit_frame orbit.

End Methods.

(** ** Operations on a plotter *)

(** The three public plotting calls with their arguments. *)
Inductive PlotCall : Type :=
| CallPlot (orbit : Orbit) (label color : option string) (trail : bool)
| CallPlotTrajectory (coordinates : list Vec3) (label color : option string)
    (trail : bool)
| CallPlotBodyOrbit (body : Body) (epoch : Time) (label color : option string)
    (trail : bool).

(** The operations of the plotter and of its 2D mixin that can change the
    state: the public methods, and the two methods [_redraw] and
    [_redraw_attractor] that a backend or a caller may invoke on their
    own.  The methods left out are these under another name
    ([_set_attractor], [_set_frame], [_plot], [_plot_trajectory],
    [_plot_body_orbit]), leave the core as it is ([_plot_position],
    [_project], the hooks), or are private to the class and run as part of
    a plotting call ([__add_trajectory],
    [__plot_coordinates_and_position]). *)
Inductive Op : Type :=
| OpPlotCall (c : PlotCall)
| OpSetAttractor (attractor : option Body)
| OpSetFrame (p_vec q_vec w_vec : Vec3)
| OpSetOrbitFrame (orbit : Orbit)
| OpSetBodyFrame (body : Body) (epoch : option Time)
| OpRedraw
| OpRedrawAttractor.

Section Operations.

Context {B T : Type} `{Backend B T} `{Collaborators}.

Definition exec_call (c : PlotCall) : Method B unit :=
  match c with
  | CallPlot orbit label color trail => plot orbit label color trail
  | CallPlotTrajectory coordinates label color trail =>
      plot_trajectory coordinates label color trail
  | CallPlotBodyOrbit body epoch label color trail =>
      plot_body_orbit body epoch label color trail
  end.

Definition exec (op : Op) : Method B unit :=
  match op with
  | OpPlotCall c => exec_call c
  | OpSetAttractor attractor => set_attractor attractor
  | OpSetFrame p_vec q_vec w_vec => set_frame p_vec q_vec w_vec
  | OpSetOrbitFrame orbit => set_orbit_frame orbit
  | OpSetBodyFrame body epoch => set_body_frame body epoch
  | OpRedraw => _redraw
  | OpRedrawAttractor => _redraw_attractor
  end.

(** A sequence of plotting calls, stopped by the first one that raises. *)
Definition exec_calls (cs : list PlotCall) : Method B unit :=
  for_each exec_call cs.

(** The states a plotter can be in: a freshly constructed one, and the state
    any operation leaves behind, whether it returned or raised. *)
Inductive reachable : Plotter B -> Prop :=
| reachable_init (num_points : option Z) (plane : option Planes) (b : B) :
    reachable (__init__ num_points plane b)
| reachable_exec (self : Plotter B) (op : Op) :
    reachable self -> reachable (snd (exec op self)).

End Operations.

(** ** A recording backend and sample collaborators *)

(** What a recording backend keeps of each hook call. *)
Inductive Drawn : Type :=
| Cleared
| Sphere (radius : R) (color name : string) (center : option Vec3)
| Point (radius : R) (color name : string) (center : option Vec3)
| Line (coordinates : list Vec3) (label : string) (colors : list string)
    (dashed : bool).

(** A backend that draws nothing and records every hook call, latest
    first.  Its hooks never raise. *)
#[local] Instance recorder : Backend (list Drawn) unit := {
  class_name := "RecordingPlotter";
  _clear_attractor := fun _ b => (Ok tt, Cleared :: b);
  _get_colors := fun color _ _ b =>
    (Ok [match color with Some c => c | None => "#000000" end], b);
  _draw_point := fun radius color name center _ b =>
    (Ok tt, Point radius color name center :: b);
  _draw_sphere := fun radius color name center _ b =>
    (Ok tt, Sphere radius color name center :: b);
  _plot_coordinates := fun coordinates label colors dashed _ b =>
    (Ok tt, Line coordinates label colors dashed :: b)
}.

Definition Sun : Body := mkBody 1 "Sun" 695700 None.
Definition Earth : Body := mkBody 2 "Earth" 6371 (Some Sun).
Definition Mars : Body := mkBody 4 "Mars" 3390 (Some Sun).

(** Collaborators for worked examples: a body moves along the x axis, one
    km per second from 100000 km at time zero; every period is ten
    seconds. *)
#[local] Instance sample_collaborators : Collaborators := {
  BODY_COLORS := fun name => if String.eqb name "Earth" then Some "#204a87" else None;
  generate_label := fun _ label => py_str label;
  change_plane := fun orbit _ => Ok orbit;
  mean_period := fun _ _ => Ok 10;
  body_str := body_name;
  ephem_position := fun _ _ _ t => Ok (mkVec (100000 + t) 0 0);
  from_body_ephem := fun body _ =>
    match body_parent body with
    | Some parent =>
        Ok (mkOrbit parent 0 (mkVec 100000 0 0) (fun _ => Ok [mkVec 100000 0 0])
              (mkVec 1 0 0, mkVec 0 1 0, mkVec 0 0 1))
    | None => Err (ValueError "body has no parent")
    end
}.

(** ** Notions used in the properties *)

(** *** The minimum distance of the stored trajectories *)

(** The spec's words: the minimum, over all stored trajectories, of the
    minimum distance from the origin of their coordinate samples; zero when
    there is no trajectory. *)
Definition min_distance_of (ts : list Trajectory) (d : R) : Prop :=
  match ts with
  | [] => d = 0
  | _ :: _ =>
      (exists t p, In t ts /\ In p (coordinates t) /\ d = norm p) /\
      (forall t p, In t ts -> In p (coordinates t) -> d <= norm p)
  end.

(** The value [_redraw_attractor] computes for [min_distance]. *)
Definition min_distance (ts : list Trajectory) : Result R :=
  rbind (rmap (fun t => np_min (map norm (coordinates t))) ts)
    (fun distances => py_min (match distances with [] => [0] | _ => distances end)).

(** The value [_redraw_attractor] stores in [_attractor_radius]. *)
Definition recomputed_radius (c : Core) : Result R :=
  rbind (min_distance (_trajectories c))
    (fun d =>
       match _attractor c with
       | Some a => Ok (py_max2 (body_R a) (d * (15 / 100)))
       | None => Err (AttributeError "'NoneType' object has no attribute 'R'")
       end).

(** The core with one more trajectory at the end of its list. *)
Definition appended (c : Core) (t : Trajectory) : Core :=
  with_trajectories (_trajectories c ++ [t]) c.

(** The radius is still the initial infinity, or an attractor is bound and
    the radius is no less than its physical radius. *)
Definition radius_bounded (c : Core) : Prop :=
  _attractor_radius c = Inf \/
  exists a x,
    _attractor c = Some a /\ _attractor_radius c = Fin x /\ body_R a <= x.


(** *** What a method may change in the core *)

(** [preserves P m]: whatever [m] does and however it ends, the core it
    leaves is related by [P] to the core it found. *)
Definition preserves {B A : Type} (P : Core -> Core -> Prop) (m : Method B A) : Prop :=
  forall s, P (core s) (core (snd (m s))).

(** The trajectory list only grows at its end. *)
Definition grows (c c' : Core) : Prop :=
  exists ts, _trajectories c' = (_trajectories c ++ ts)%list.

(** An attractor, once bound, stays bound to the same body. *)
Definition keeps_attractor (c c' : Core) : Prop :=
  forall a, _attractor c = Some a -> _attractor c' = Some a.

(** The sampling resolution and the plane are fixed at construction. *)
Definition keeps_config (c c' : Core) : Prop :=
  _plane c' = _plane c /\ _num_points c' = _num_points c.

Definition keeps_frame (c c' : Core) : Prop := _frame c' = _frame c.

(** Nothing of the core changes. *)
Definition same_core (c c' : Core) : Prop := c' = c.

(** Everything but the frame is as it was. *)
Definition same_but_frame (c c' : Core) : Prop :=
  _num_points c' = _num_points c /\
  _trajectories c' = _trajectories c /\
  _attractor c' = _attractor c /\
  _plane c' = _plane c /\
  _attractor_radius c' = _attractor_radius c.

(** What the steps of a plotting call that come before [__add_trajectory]
    may change in the core: nothing, or the binding of an attractor that
    was not yet bound. *)
Definition binds_attractor (c c1 : Core) : Prop :=
  c1 = c \/ (_attractor c = None /\ exists a, c1 = with_attractor a c).

(** *** The course of a plotting call *)

(** The trajectory a plotting call builds from its arguments; [self] gives
    the plane and the number of points. *)
Definition call_builds `{Collaborators} (c : PlotCall) (self : Core) (t : Trajectory)
  : Prop :=
  match c with
  | CallPlot orbit lbl _ _ =>
      exists orbit',
        change_plane orbit (_plane self) = Ok orbit' /\
        orbit_sample orbit' (_num_points self) = Ok (coordinates t) /\
        position t = Some (orbit_r orbit') /\
        label t = generate_label (orbit_epoch orbit') lbl /\
        dashed t = true
  | CallPlotTrajectory crd lbl _ _ =>
      coordinates t = crd /\
      position t = None /\
      label t = py_str lbl /\
      dashed t = false
  | CallPlotBodyOrbit body epoch lbl _ _ =>
      exists period epochs,
        mean_period body epoch = Ok period /\
        time_range epoch (_num_points self) (epoch + period) = Ok epochs /\
        ephem_sample body epochs (body_parent body) (_plane self)
          = Ok (coordinates t) /\
        position t = hd_error (coordinates t) /\
        coordinates t <> [] /\
        label t =
          generate_label epoch (if truthy lbl then lbl else Some (body_str body)) /\
        dashed t = false
  end.

Section CallCourse.

Context {B T : Type} `{Backend B T} `{Collaborators}.

(** The two ways a plotting call can go: it raises before it reaches
    [__add_trajectory], or it continues as [__add_trajectory] on the
    trajectory it built. *)
Definition call_shape (c : PlotCall) (c0 : Core) (r : Result unit * Plotter B) : Prop :=
  (exists e s1, r = (Err e, s1) /\ binds_attractor c0 (core s1)) \/
  (exists s1 crd pos lbl cols dsh,
      binds_attractor c0 (core s1) /\
      call_builds c c0 (mkTrajectory crd pos lbl cols dsh) /\
      r = bind (__add_trajectory crd pos lbl cols dsh) (fun _ => ret tt) s1).

(** Either the call raised before [__add_trajectory], having at most bound
    the attractor; or it appended the trajectory it built and then either
    recomputed the radius or raised while recomputing it. *)
Definition call_outcome (c : PlotCall) (s : Plotter B) : Prop :=
  let r := exec_call c s in
  (exists e, fst r = Err e /\ binds_attractor (core s) (core (snd r))) \/
  (exists c1 t,
      binds_attractor (core s) c1 /\
      call_builds c (core s) t /\
      match recomputed_radius (appended c1 t) with
      | Ok x => core (snd r) = with_attractor_radius (Fin x) (appended c1 t)
      | Err e => fst r = Err e /\ core (snd r) = appended c1 t
      end).

End CallCourse.

(** *** Frames, projection and the position marker *)

(** [a] is [b] within numpy's default tolerance. *)
Definition close_to (a b : R) : Prop := Rabs (a - b) <= atol + rtol * Rabs b.

(** The three vectors have unit length, within tolerance. *)
Definition unit_length (p q w : Vec3) : Prop :=
  close_to (norm p) 1 /\ close_to (norm q) 1 /\ close_to (norm w) 1.

(** The three vectors are pairwise orthogonal, within tolerance. *)
Definition mutually_orthogonal (p q w : Vec3) : Prop :=
  close_to (dot p q) 0 /\ close_to (dot q w) 0 /\ close_to (dot w p) 0.

(** Exactly orthonormal vectors. *)
Definition orthonormal (p q w : Vec3) : Prop :=
  norm p = 1 /\ norm q = 1 /\ norm w = 1 /\
  dot p q = 0 /\ dot q w = 0 /\ dot w p = 0.

(** The point with coordinates [(a, b)] in the plane of [p] and [q]. *)
Definition in_plane (p q : Vec3) (ab : R * R) : Vec3 :=
  vadd (vscale (fst ab) p) (vscale (snd ab) q).

(** The radius the spec's sentence gives the marker: half of the minimum of
    (attractor radius times 0.5) and ((distance minus physical radius) times
    0.5). *)
Definition stated_marker_radius (attractor_radius distance physical_radius : R) : R :=
  1 / 2 * Rmin (attractor_radius * (1 / 2)) ((distance - physical_radius) * (1 / 2)).

(** *** Time ranges *)

(** The instants are evenly spaced. *)
Definition evenly_spaced (epochs : list Time) : Prop :=
  exists step, forall i,
      (S i < List.length epochs)%nat -> nth (S i) epochs 0 - nth i epochs 0 = step.

(** [epochs] is a range of [n] evenly spaced instants that starts at
    [epoch] and ends one [period] later. *)
Definition spans_period (epochs : list Time) (n : Z) (epoch period : R) : Prop :=
  Z.of_nat (List.length epochs) = n /\
  nth 0 epochs 0 = epoch /\
  nth (List.length epochs - 1) epochs 0 = epoch + period /\
  evenly_spaced epochs.

(** *** Worked examples on the recording backend *)

Definition no_attractor_message : string :=
  "An attractor must be set up first, please use set_attractor(Major_Body) or plot(orbit)".

Definition fresh_plotter : Plotter (list Drawn) := __init__ None None [].

Definition earth_plotter : Plotter (list Drawn) :=
  snd (exec (OpSetAttractor (Some Earth)) fresh_plotter).

(** A trajectory whose closest sample is 50000 km from the origin. *)
Definition high_orbit : PlotCall :=
  CallPlotTrajectory [mkVec 50000 0 0; mkVec 0 60000 0] None None false.

(** A trajectory that comes as close as 10000 km. *)
Definition low_orbit : PlotCall :=
  CallPlotTrajectory [mkVec 10000 0 0] (Some "low") None false.

Definition high_orbit_plotter : Plotter (list Drawn) :=
  snd (exec (OpPlotCall high_orbit) earth_plotter).

Definition low_orbit_plotter : Plotter (list Drawn) :=
  snd (exec (OpPlotCall low_orbit) high_orbit_plotter).

(** The plotter with Earth bound on which [_redraw_attractor] has run while
    no trajectory is stored, and that plotter after its first trajectory. *)
Definition redrawn_plotter : Plotter (list Drawn) :=
  snd (exec OpRedrawAttractor earth_plotter).

Definition redrawn_high_orbit_plotter : Plotter (list Drawn) :=
  snd (exec (OpPlotCall high_orbit) redrawn_plotter).

(** The plotter after a [plot_trajectory] call with no sample at all. *)
Definition empty_orbit : PlotCall := CallPlotTrajectory [] None None false.

Definition empty_orbit_plotter : Plotter (list Drawn) :=
  snd (exec (OpPlotCall empty_orbit) earth_plotter).

Definition e_x : Vec3 := mkVec 1 0 0.
Definition e_y : Vec3 := mkVec 0 1 0.
Definition e_z : Vec3 := mkVec 0 0 1.

(** The plotter with Earth bound and the coordinate axes as its frame. *)
Definition framed_plotter : Plotter (list Drawn) :=
  snd (exec (OpSetFrame e_x e_y e_z) earth_plotter).

(** A plotter configured with a single point, and the orbit of Earth on
    it. *)
Definition one_point_plotter : Plotter (list Drawn) := __init__ (Some 1%Z) None [].

Definition earth_orbit : PlotCall := CallPlotBodyOrbit Earth 0 None None false.

Definition one_point_orbit_plotter : Plotter (list Drawn) :=
  snd (exec (OpPlotCall earth_orbit) one_point_plotter).

(** A plotter configured with three points. *)
Definition three_point_plotter : Plotter (list Drawn) := __init__ (Some 3%Z) None [].

Definition three_point_orbit_plotter : Plotter (list Drawn) :=
  snd (exec (OpPlotCall earth_orbit) three_point_plotter).

(** *** Sequences of operations, and hooks that do not raise *)

(** The plotter after a caller has issued the operations one after another,
    going on after those that raised. *)
Definition exec_ops {B T : Type} `{Backend B T} `{Collaborators} (ops : list Op)
  (s : Plotter B) : Plotter B :=
  fold_left (fun self op => snd (exec op self)) ops s.

(** A hook that returns whatever the core and the surface are. *)
Definition never_raises {B X : Type} (h : Core -> B -> Result X * B) : Prop :=
  forall c b, exists x b', h c b = (Ok x, b').

(** No stored trajectory is without a sample. *)
Definition all_sampled (ts : list Trajectory) : Prop :=
  Forall (fun t => coordinates t <> []) ts.

(** The frame, if one is stored, passed the validation of [_set_frame]. *)
Definition frame_valid (c : Core) : Prop :=
  forall p q w, _frame c = Some (p, q, w) ->
                unit_length p q w /\ mutually_orthogonal p q w.

(** What the recording backend records, latest first, while one trajectory
    is drawn with attractor [a]: the line of its coordinates, then the
    marker of its position if it has one. *)
Definition drawn_of (self : Core) (a : Body) (t : Trajectory) : list Drawn :=
  match position t, colors t with
  | Some p, color :: _ =>
      [Point (length_min2 (length_scale (_attractor_radius self) (1 / 2))
                ((norm p - body_R a) * (1 / 2)))
         color (label t) (Some p);
       Line (coordinates t) (label t) (colors t) (dashed t)]
  | _, _ => [Line (coordinates t) (label t) (colors t) (dashed t)]
  end.

(** Collaborators that cannot bring an orbit into the ecliptic plane and
    have mean elements for Earth only. *)
Definition strict_collaborators : Collaborators := {|
  BODY_COLORS := fun _ => None;
  generate_label := fun _ label => py_str label;
  change_plane := fun orbit plane =>
    match plane with
    | EARTH_EQUATOR => Ok orbit
    | EARTH_ECLIPTIC => Err (OtherError "plane not available")
    end;
  mean_period := fun body _ =>
    if String.eqb (body_name body) "Earth" then Ok 10
    else Err (ValueError "no mean elements");
  body_str := body_name;
  ephem_position := fun _ _ _ t => Ok (mkVec (100000 + t) 0 0);
  from_body_ephem := fun _ _ => Err (OtherError "no ephemeris")
|}.

(** An orbit around Earth, at 50000 km on the x axis. *)
Definition sample_orbit : Orbit :=
  mkOrbit Earth 0 (mkVec 50000 0 0) (fun _ => Ok [mkVec 50000 0 0; mkVec 0 50000 0])
    (mkVec 1 0 0, mkVec 0 1 0, mkVec 0 0 1).

(** A plotter on the ecliptic plane, and the base class constructed with
    its defaults. *)
Definition ecliptic_plotter : Plotter (list Drawn) :=
  __init__ None (Some EARTH_ECLIPTIC) [].

Definition base_plotter : Plotter unit := __init__ None None tt.

(** The fresh plotter after [plot] of the sample orbit. *)
Definition sample_orbit_plotter : Plotter (list Drawn) :=
  snd (exec (OpPlotCall (CallPlot sample_orbit None None false)) fresh_plotter).

(** ** Properties *)

(** *** Results and the monad *)

Lemma bind_ok {S A C : Type} (m : M S A) (k : A -> M S C) (s s' : S) (c : C) :
  bind m k s = (Ok c, s') ->
  exists a s1, m s = (Ok a, s1) /\ k a s1 = (Ok c, s').
Proof.
  unfold bind. destruct (m s) as [[a|e] s1]; intros E.
  - exists a, s1. split; [reflexivity | exact E].
  - discriminate.
Qed.

Lemma bind_run {S A C : Type} (m : M S A) (k : A -> M S C) (s s1 : S) (a : A) :
  m s = (Ok a, s1) -> bind m k s = k a s1.
Proof. unfold bind. intros ->. reflexivity. Qed.

Lemma rmap_ok {A C : Type} (f : A -> Result C) (l : list A) (ys : list C) :
  rmap f l = Ok ys -> Forall2 (fun x y => f x = Ok y) l ys.
Proof.
  revert ys. induction l as [|x l IH]; simpl; intros ys E.
  - injection E as <-. constructor.
  - destruct (f x) as [y|e] eqn:Ex; simpl in E; [|discriminate].
    destruct (rmap f l) as [ys'|e] eqn:El; simpl in E; [|discriminate].
    injection E as <-. constructor; [exact Ex | apply IH; reflexivity].
Qed.

Lemma rmap_length {A C : Type} (f : A -> Result C) (l : list A) (ys : list C) :
  rmap f l = Ok ys -> List.length ys = List.length l.
Proof.
  intros E. apply rmap_ok in E. symmetry. exact (Forall2_length E).
Qed.

Lemma rmap_total {A C : Type} (f : A -> Result C) (l : list A) :
  Forall (fun x => exists y, f x = Ok y) l -> exists ys, rmap f l = Ok ys.
Proof.
  induction 1 as [|x l [y Ey] _ [ys Eys]]; simpl.
  - exists []. reflexivity.
  - exists (y :: ys). rewrite Ey. simpl. rewrite Eys. reflexivity.
Qed.

Lemma Forall2_pick_l {A C : Type} (P : A -> C -> Prop) (l : list A) (ys : list C)
  (x : A) :
  Forall2 P l ys -> In x l -> exists y, In y ys /\ P x y.
Proof.
  induction 1 as [|x0 y0 l ys H0 _ IH]; simpl; [contradiction|].
  intros [<-|HIn].
  - exists y0. auto.
  - destruct (IH HIn) as (y & Hy & Hxy). exists y. auto.
Qed.

Lemma Forall2_pick_r {A C : Type} (P : A -> C -> Prop) (l : list A) (ys : list C)
  (y : C) :
  Forall2 P l ys -> In y ys -> exists x, In x l /\ P x y.
Proof.
  induction 1 as [|x0 y0 l ys H0 _ IH]; simpl; [contradiction|].
  intros [<-|HIn].
  - exists x0. auto.
  - destruct (IH HIn) as (x & Hx & Hxy). exists x. auto.
Qed.

(** *** Real arithmetic of the model *)

Lemma py_min2_Rmin (a b : R) : py_min2 a b = Rmin a b.
Proof.
  unfold py_min2, Rmin.
  destruct (Rlt_dec b a), (Rle_dec a b); lra.
Qed.

Lemma py_max2_Rmax (a b : R) : py_max2 a b = Rmax a b.
Proof.
  unfold py_max2, Rmax.
  destruct (Rlt_dec a b), (Rle_dec a b); lra.
Qed.

Lemma py_min_from_in (cur : R) (l : list R) : In (py_min_from cur l) (cur :: l).
Proof.
  revert cur. induction l as [|x l IH]; intros cur; simpl.
  - left. reflexivity.
  - destruct (IH (py_min2 cur x)) as [E|HIn].
    + rewrite <- E. unfold py_min2. destruct (Rlt_dec x cur); auto.
    + right. right. exact HIn.
Qed.

Lemma py_min_from_le (cur : R) (l : list R) (y : R) :
  In y (cur :: l) -> py_min_from cur l <= y.
Proof.
  revert cur y. induction l as [|x l IH]; intros cur y HIn; simpl.
  - destruct HIn as [<-|[]]. lra.
  - assert (Hstep : py_min_from (py_min2 cur x) l <= py_min2 cur x)
      by (apply IH; left; reflexivity).
    assert (Hcur : py_min2 cur x <= cur /\ py_min2 cur x <= x)
      by (unfold py_min2; destruct (Rlt_dec x cur); lra).
    destruct HIn as [<-|[<-|HIn]].
    + lra.
    + lra.
    + apply IH. right. exact HIn.
Qed.

Lemma norm_x_axis (x : R) : 0 <= x -> norm (mkVec x 0 0) = x.
Proof.
  intros Hx. unfold norm, dot. simpl.
  replace (x * x + 0 * 0 + 0 * 0) with (x * x) by ring.
  apply sqrt_square. exact Hx.
Qed.

Lemma norm_y_axis (y : R) : 0 <= y -> norm (mkVec 0 y 0) = y.
Proof.
  intros Hy. unfold norm, dot. simpl.
  replace (0 * 0 + y * y + 0 * 0) with (y * y) by ring.
  apply sqrt_square. exact Hy.
Qed.

Lemma norm_z_axis (z : R) : 0 <= z -> norm (mkVec 0 0 z) = z.
Proof.
  intros Hz. unfold norm, dot. simpl.
  replace (0 * 0 + 0 * 0 + z * z) with (z * z) by ring.
  apply sqrt_square. exact Hz.
Qed.

Lemma dot_comm (a b : Vec3) : dot a b = dot b a.
Proof. unfold dot. ring. Qed.

Lemma dot_vadd_l (a b c : Vec3) : dot (vadd a b) c = dot a c + dot b c.
Proof. unfold dot, vadd. simpl. ring. Qed.

Lemma dot_vsub_l (a b c : Vec3) : dot (vsub a b) c = dot a c - dot b c.
Proof. unfold dot, vsub. simpl. ring. Qed.

Lemma dot_vscale_l (k : R) (a c : Vec3) : dot (vscale k a) c = k * dot a c.
Proof. unfold dot, vscale. simpl. ring. Qed.

Lemma isclose_iff (a b : R) :
  isclose a b = true <-> Rabs (a - b) <= atol + rtol * Rabs b.
Proof.
  unfold isclose. destruct (Rle_dec (Rabs (a - b)) (atol + rtol * Rabs b)).
  - tauto.
  - split; [discriminate | contradiction].
Qed.

Lemma allclose_iff (l : list R) (b : R) :
  allclose l b = true <-> Forall (fun a => Rabs (a - b) <= atol + rtol * Rabs b) l.
Proof.
  unfold allclose. rewrite forallb_forall, Forall_forall.
  split; intros Hl a Ha; apply isclose_iff; auto.
Qed.

(** *** The minimum distance of the stored trajectories *)

Lemma np_min_ok (l : list Vec3) (m : R) :
  np_min (map norm l) = Ok m ->
  (exists p, In p l /\ m = norm p) /\ (forall p, In p l -> m <= norm p).
Proof.
  destruct l as [|p0 l]; simpl; [discriminate|].
  intros E. injection E as <-. split.
  - pose proof (py_min_from_in (norm p0) (map norm l)) as HIn.
    change (norm p0 :: map norm l) with (map norm (p0 :: l)) in HIn.
    apply in_map_iff in HIn. destruct HIn as (p & Ep & Hp).
    exists p. split; [exact Hp | symmetry; exact Ep].
  - intros p Hp. apply py_min_from_le.
    change (norm p0 :: map norm l) with (map norm (p0 :: l)).
    apply in_map. exact Hp.
Qed.

Lemma min_distance_correct (ts : list Trajectory) (d : R) :
  min_distance ts = Ok d -> min_distance_of ts d.
Proof.
  unfold min_distance.
  destruct (rmap (fun t => np_min (map norm (coordinates t))) ts)
    as [ds|e] eqn:Eds; simpl; [|discriminate].
  apply rmap_ok in Eds.
  destruct Eds as [|t0 d0 ts ds Ht0 Hts]; simpl.
  - intros E. injection E as <-. reflexivity.
  - intros E. injection E as <-.
    assert (Hall : Forall2 (fun t m => np_min (map norm (coordinates t)) = Ok m)
                     (t0 :: ts) (d0 :: ds)) by (constructor; assumption).
    split.
    + destruct (Forall2_pick_r _ _ _ (py_min_from d0 ds) Hall)
        as (t & Ht & Em); [apply py_min_from_in|].
      apply np_min_ok in Em. destruct Em as [(p & Hp & Ep) _].
      exists t, p. auto.
    + intros t p Ht Hp.
      destruct (Forall2_pick_l _ _ _ t Hall Ht) as (m & Hm & Em).
      apply np_min_ok in Em. destruct Em as [_ Hle].
      apply Rle_trans with m; [apply py_min_from_le; exact Hm | apply Hle; exact Hp].
Qed.

Lemma min_distance_total (ts : list Trajectory) :
  Forall (fun t => coordinates t <> []) ts -> exists d, min_distance ts = Ok d.
Proof.
  intros Hts. unfold min_distance.
  destruct (rmap_total (fun t => np_min (map norm (coordinates t))) ts) as [ds ->].
  - eapply Forall_impl; [|exact Hts]. intros t Ht.
    simpl in Ht.
    destruct (coordinates t) as [|p l]; [exfalso; apply Ht; reflexivity|].
    simpl. eauto.
  - simpl. destruct ds; simpl; eauto.
Qed.


(** *** What a method may change in the core *)

Section Preservation.

Context {B : Type} (P : Core -> Core -> Prop) `{!PreOrder P}.

Lemma preserves_ret {A : Type} (a : A) : preserves (B := B) P (ret a).
Proof. intros s. reflexivity. Qed.

Lemma preserves_raise {A : Type} (e : PyError) : preserves (B := B) (A := A) P (raise e).
Proof. intros s. reflexivity. Qed.

Lemma preserves_lift_result {A : Type} (r : Result A) :
  preserves (B := B) P (lift_result r).
Proof. intros s. reflexivity. Qed.

Lemma preserves_get_self : preserves (B := B) P get_self.
Proof. intros s. reflexivity. Qed.

Lemma preserves_call_hook {X : Type} (h : Core -> B -> Result X * B) :
  preserves P (call_hook h).
Proof.
  intros s. unfold call_hook. destruct (h (core s) (surface s)). reflexivity.
Qed.

Lemma preserves_attr_of {A : Type} (o : option A) (attr : string) :
  preserves (B := B) P (attr_of o attr).
Proof. intros s. destruct o; reflexivity. Qed.

Lemma preserves_item0 {A : Type} (l : list A) : preserves (B := B) P (item0 l).
Proof. intros s. destruct l; reflexivity. Qed.

Lemma preserves_update (f : Core -> Core) :
  (forall c, P c (f c)) -> preserves (B := B) P (update_self f).
Proof. intros Hf s. apply Hf. Qed.

Lemma preserves_bind {A C : Type} (m : Method B A) (k : A -> Method B C) :
  preserves P m -> (forall a, preserves P (k a)) -> preserves P (bind m k).
Proof.
  intros Hm Hk s. unfold bind. specialize (Hm s).
  destruct (m s) as [[a|e] s1]; simpl in Hm.
  - transitivity (core s1); [exact Hm | apply Hk].
  - exact Hm.
Qed.

Lemma preserves_for_each {A : Type} (f : A -> Method B unit) (l : list A) :
  (forall a, preserves P (f a)) -> preserves P (for_each f l).
Proof.
  intros Hf. induction l as [|x l IH]; simpl.
  - apply preserves_ret.
  - apply preserves_bind; [apply Hf | intros _; exact IH].
Qed.

End Preservation.

(** Steps through a method, leaving the obligations of its field updates
    and of the methods it calls. *)
Ltac preserve_step :=
  match goal with
  | |- PreOrder _ => typeclasses eauto
  | |- forall _, preserves _ _ => intro
  | |- preserves _ (bind _ _) => apply preserves_bind
  | |- preserves _ (ret _) => apply preserves_ret
  | |- preserves _ (raise _) => apply preserves_raise
  | |- preserves _ (lift_result _) => apply preserves_lift_result
  | |- preserves _ get_self => apply preserves_get_self
  | |- preserves _ (call_hook _) => apply preserves_call_hook
  | |- preserves _ (attr_of _ _) => apply preserves_attr_of
  | |- preserves _ (item0 _) => apply preserves_item0
  | |- preserves _ (for_each _ _) => apply preserves_for_each
  | |- preserves _ (update_self _) => apply preserves_update
  | |- preserves _ (match ?x with _ => _ end) => destruct x
  | |- preserves _ (let _ := _ in _) => cbv zeta
  end.

Ltac preserve := repeat preserve_step.

#[local] Instance same_core_preorder : PreOrder same_core.
Proof.
  split.
  - intros c. reflexivity.
  - intros a b c. unfold same_core. congruence.
Qed.

(** *** The methods one by one *)

Section MethodFacts.

Context {B T : Type} `{Backend B T} `{Collaborators}.

Lemma _set_attractor_run (attractor : option Body) (s : Plotter B) :
  _set_attractor attractor s =
  match _attractor (core s) with
  | None => (Ok tt, mkPlotter (with_attractor attractor (core s)) (surface s))
  | Some current =>
      if obj_is attractor (Some current) then (Ok tt, s)
      else (Err (NotImplementedError
                   ("Attractor has already been set to " ++ body_name current)), s)
  end.
Proof.
  unfold _set_attractor, bind, get_self. simpl.
  destruct (_attractor (core s)) as [current|]; [|reflexivity].
  destruct (obj_is attractor (Some current)); reflexivity.
Qed.

Lemma _plot_position_same_core (position : Vec3) (label : string) (colors : list string) :
  preserves same_core (_plot_position position label colors).
Proof. unfold _plot_position. preserve. Qed.

Lemma __plot_coordinates_and_position_same_core (t : Trajectory) :
  preserves same_core (__plot_coordinates_and_position t).
Proof.
  unfold __plot_coordinates_and_position. preserve.
  apply _plot_position_same_core.
Qed.

Lemma _redraw_same_core : preserves same_core (_redraw (B := B)).
Proof.
  unfold _redraw. preserve. apply __plot_coordinates_and_position_same_core.
Qed.

Lemma _redraw_attractor_run (s : Plotter B) :
  match recomputed_radius (core s) with
  | Ok x => core (snd (_redraw_attractor s)) = with_attractor_radius (Fin x) (core s)
  | Err e => _redraw_attractor s = (Err e, s)
  end.
Proof.
  unfold recomputed_radius, min_distance, _redraw_attractor, bind, get_self, lift_result.
  simpl.
  destruct (rmap (fun t => np_min (map norm (coordinates t))) (_trajectories (core s)))
    as [ds|e]; simpl; [|reflexivity].
  destruct (py_min match ds with [] => [0] | _ :: _ => ds end) as [d|e];
    simpl; [|reflexivity].
  destruct (_attractor (core s)) as [a|]; simpl; [|reflexivity].
  unfold call_hook; simpl.
  destruct (_clear_attractor _ _) as [[[]|e] b1]; simpl; [|reflexivity].
  destruct (_draw_sphere _ _ _ _ _ _) as [[t|e] b2]; simpl; reflexivity.
Qed.

(** However [_redraw_attractor] ends, it has changed nothing of the core or
    only stored the recomputed radius. *)
Lemma _redraw_attractor_core (s : Plotter B) :
  core (snd (_redraw_attractor s)) = core s \/
  exists x, recomputed_radius (core s) = Ok x /\
            core (snd (_redraw_attractor s)) = with_attractor_radius (Fin x) (core s).
Proof.
  pose proof (_redraw_attractor_run s) as Hr.
  destruct (recomputed_radius (core s)) as [x|e].
  - right. exists x. auto.
  - left. rewrite Hr. reflexivity.
Qed.

Lemma __add_trajectory_run (crd : list Vec3) (pos : option Vec3) (lbl : string)
  (cols : list string) (dsh : bool) (s : Plotter B) :
  let t := mkTrajectory crd pos lbl cols dsh in
  let c1 := with_trajectories (_trajectories (core s) ++ [t]) (core s) in
  match recomputed_radius c1 with
  | Ok x =>
      core (snd (__add_trajectory crd pos lbl cols dsh s)) =
      with_attractor_radius (Fin x) c1
  | Err e =>
      __add_trajectory crd pos lbl cols dsh s = (Err e, mkPlotter c1 (surface s))
  end.
Proof.
  intros t c1.
  pose proof (_redraw_attractor_run (mkPlotter c1 (surface s))) as Hr.
  cbn [core] in Hr.
  unfold __add_trajectory, bind, update_self. cbv beta iota.
  change (mkPlotter (with_trajectories _ (core s)) (surface s))
    with (mkPlotter c1 (surface s)).
  destruct (recomputed_radius c1) as [x|e].
  - destruct (_redraw_attractor _) as [[[]|e] s1]; cbn [snd] in Hr.
    + pose proof (__plot_coordinates_and_position_same_core t s1) as Hp.
      unfold same_core in Hp. fold t.
      destruct (__plot_coordinates_and_position t s1) as [[r|e] s2];
        cbn [snd] in *; congruence.
    + cbn [snd]. exact Hr.
  - rewrite Hr. reflexivity.
Qed.

End MethodFacts.

(** *** Stepping through a method *)

Lemma bind_assoc {S A C D : Type} (m : M S A) (k : A -> M S C) (k' : C -> M S D) (s : S) :
  bind (bind m k) k' s = bind m (fun a => bind (k a) k') s.
Proof. unfold bind. destruct (m s) as [[a|e] s1]; reflexivity. Qed.

Lemma bind_get_self {B C : Type} (k : Core -> Method B C) (s : Plotter B) :
  bind get_self k s = k (core s) s.
Proof. reflexivity. Qed.

Lemma bind_lift_result {S A C : Type} (r : Result A) (k : A -> M S C) (s : S) :
  bind (lift_result r) k s = match r with Ok a => k a s | Err e => (Err e, s) end.
Proof. destruct r; reflexivity. Qed.

Lemma bind_call_hook {B X C : Type} (h : Core -> B -> Result X * B)
  (k : X -> Method B C) (s : Plotter B) :
  bind (call_hook h) k s =
  match h (core s) (surface s) with
  | (Ok x, b) => k x (mkPlotter (core s) b)
  | (Err e, b) => (Err e, mkPlotter (core s) b)
  end.
Proof.
  unfold bind, call_hook. destruct (h (core s) (surface s)) as [[x|e] b]; reflexivity.
Qed.

Lemma bind_raise {S A C : Type} (e : PyError) (k : A -> M S C) (s : S) :
  bind (raise e) k s = (Err e, s).
Proof. reflexivity. Qed.

Lemma bind_item0 {S A C : Type} (l : list A) (k : A -> M S C) (s : S) :
  bind (item0 l) k s =
  match l with
  | x :: _ => k x s
  | [] => (Err (IndexError "list index out of range"), s)
  end.
Proof. destruct l; reflexivity. Qed.

Lemma bind_array_item0 {S A C : Type} (l : list A) (k : A -> M S C) (s : S) :
  bind (array_item0 l) k s =
  match l with
  | x :: _ => k x s
  | [] => (Err (IndexError "index 0 is out of bounds for axis 0 with size 0"), s)
  end.
Proof. destruct l; reflexivity. Qed.

Section Calls.

Context {B T : Type} `{Backend B T} `{Collaborators}.

Lemma bind_set_attractor {C : Type} (attractor : option Body) (k : unit -> Method B C)
  (s : Plotter B) :
  bind (set_attractor attractor) k s =
  match _attractor (core s) with
  | None => k tt (mkPlotter (with_attractor attractor (core s)) (surface s))
  | Some current =>
      if obj_is attractor (Some current) then k tt s
      else (Err (NotImplementedError
                   ("Attractor has already been set to " ++ body_name current)), s)
  end.
Proof.
  unfold bind, set_attractor. rewrite _set_attractor_run.
  destruct (_attractor (core s)) as [current|]; [|reflexivity].
  destruct (obj_is attractor (Some current)); reflexivity.
Qed.

Lemma binds_attractor_refl (c : Core) : binds_attractor c c.
Proof. left. reflexivity. Qed.

Lemma binds_attractor_with (a : option Body) (c : Core) :
  _attractor c = None -> binds_attractor c (with_attractor a c).
Proof. intros E. right. split; [exact E | exists a; reflexivity]. Qed.

Lemma call_shape_err (c : PlotCall) (c0 : Core) (e : PyError) (s1 : Plotter B) :
  binds_attractor c0 (core s1) -> call_shape c c0 (Err e, s1).
Proof. intros Hb. left. exists e, s1. auto. Qed.

Lemma call_shape_add (c : PlotCall) (c0 : Core) (s1 : Plotter B) (crd : list Vec3)
  (pos : option Vec3) (lbl : string) (cols : list string) (dsh : bool) :
  binds_attractor c0 (core s1) ->
  call_builds c c0 (mkTrajectory crd pos lbl cols dsh) ->
  call_shape c c0 (bind (__add_trajectory crd pos lbl cols dsh) (fun _ => ret tt) s1).
Proof. intros Hb Hc. right. exists s1, crd, pos, lbl, cols, dsh. auto. Qed.

Ltac call_step :=
  first [ rewrite bind_assoc | rewrite bind_get_self | rewrite bind_lift_result
        | rewrite bind_call_hook | rewrite bind_set_attractor | rewrite bind_item0
        | rewrite bind_array_item0 | rewrite bind_raise ];
  cbv beta; cbn [core surface].

Ltac call_case :=
  match goal with
  | |- call_shape _ _ (match ?x with _ => _ end) => destruct x eqn:?
  | |- call_shape _ _ (bind (match ?x with _ => _ end) _ _) => destruct x eqn:?
  | |- call_shape _ _ (if ?x then _ else _) => destruct x eqn:?
  | |- call_shape _ _ (let _ := _ in _) => cbv zeta
  end.

Ltac call_leaf :=
  match goal with
  | |- call_shape _ _ (Err _, _) =>
      apply call_shape_err; cbn [core];
      auto using binds_attractor_refl, binds_attractor_with
  | |- call_shape _ _ (bind (__add_trajectory _ _ _ _ _) _ _) =>
      apply call_shape_add;
      [ cbn [core]; auto using binds_attractor_refl, binds_attractor_with
      | unfold call_builds;
        cbn [coordinates position label dashed with_attractor _plane _num_points] in *;
        subst;
        repeat match goal with
               | |- exists _, _ => eexists
               | |- _ /\ _ => split
               end;
        eauto; discriminate ]
  end.

Lemma exec_call_shape (c : PlotCall) (s : Plotter B) :
  call_shape c (core s) (exec_call c s).
Proof.
  destruct c as [orbit lbl color trail | crd lbl color trail | body epoch lbl color trail];
    unfold exec_call.
  - unfold plot, _plot. repeat first [call_step | call_case]; call_leaf.
  - unfold plot_trajectory, _plot_trajectory.
    repeat first [call_step | call_case]; call_leaf.
  - unfold plot_body_orbit, _plot_body_orbit.
    repeat first [call_step | call_case]; call_leaf.
Qed.

End Calls.
(** *** The outcome of a plotting call *)

Section Outcome.

Context {B T : Type} `{Backend B T} `{Collaborators}.

Lemma exec_call_outcome (c : PlotCall) (s : Plotter B) : call_outcome c s.
Proof.
  unfold call_outcome.
  destruct (exec_call_shape c s)
    as [(e & s1 & -> & Hb) | (s1 & crd & pos & lbl & cols & dsh & Hb & Hc & ->)].
  - left. exists e. auto.
  - right. exists (core s1), (mkTrajectory crd pos lbl cols dsh).
    split; [exact Hb|]. split; [exact Hc|].
    pose proof (__add_trajectory_run crd pos lbl cols dsh s1) as Hrun.
    cbv zeta in Hrun. fold (appended (core s1) (mkTrajectory crd pos lbl cols dsh)) in Hrun.
    destruct (recomputed_radius _) as [x|e].
    + unfold bind.
      destruct (__add_trajectory crd pos lbl cols dsh s1) as [[r|e] s2];
        cbn [snd] in *; exact Hrun.
    + unfold bind. rewrite Hrun. cbn [fst snd core]. auto.
Qed.

(** A call that returned has appended its trajectory and recomputed the
    radius from the list that includes it. *)
Lemma exec_call_ok (c : PlotCall) (s s' : Plotter B) :
  exec_call c s = (Ok tt, s') ->
  exists c1 t x,
    binds_attractor (core s) c1 /\
    call_builds c (core s) t /\
    recomputed_radius (appended c1 t) = Ok x /\
    core s' = with_attractor_radius (Fin x) (appended c1 t).
Proof.
  intros E. pose proof (exec_call_outcome c s) as Ho. unfold call_outcome in Ho.
  rewrite E in Ho. cbn [fst snd] in Ho.
  destruct Ho as [(e & He & _) | (c1 & t & Hb & Hc & Hr)]; [discriminate|].
  exists c1, t.
  destruct (recomputed_radius (appended c1 t)) as [x|e].
  - exists x. auto.
  - destruct Hr as [He _]. discriminate.
Qed.

End Outcome.

(** *** Fields across a call *)

Lemma binds_attractor_fields (c c1 : Core) :
  binds_attractor c c1 ->
  _num_points c1 = _num_points c /\
  _trajectories c1 = _trajectories c /\
  _plane c1 = _plane c /\
  _attractor_radius c1 = _attractor_radius c /\
  _frame c1 = _frame c /\
  keeps_attractor c c1.
Proof.
  intros [->|(Hnone & a & ->)]; cbn; repeat split; try reflexivity.
  all: intros a0 E; congruence.
Qed.

#[local] Instance same_but_frame_preorder : PreOrder same_but_frame.
Proof.
  split.
  - intros c. repeat split.
  - intros a b c (E1 & E2 & E3 & E4 & E5) (F1 & F2 & F3 & F4 & F5).
    repeat split; congruence.
Qed.

Lemma same_but_frame_fields (c c' : Core) :
  same_but_frame c c' -> grows c c' /\ keeps_attractor c c' /\ keeps_config c c'.
Proof.
  intros (E1 & E2 & E3 & E4 & E5). repeat split; try assumption.
  - exists []. rewrite E2. symmetry. apply app_nil_r.
  - intros a. rewrite E3. auto.
Qed.

Lemma preserves_weaken {B A : Type} (P Q : Core -> Core -> Prop) (m : Method B A) :
  (forall c c', P c c' -> Q c c') -> preserves P m -> preserves Q m.
Proof. intros HPQ Hm s. apply HPQ, Hm. Qed.

Section Fields.

Context {B T : Type} `{Backend B T} `{Collaborators}.

Lemma _set_frame_same_but_frame (p_vec q_vec w_vec : Vec3) :
  preserves same_but_frame (_set_frame (B := B) p_vec q_vec w_vec).
Proof.
  unfold _set_frame. preserve.
  - repeat split.
  - apply preserves_weaken with (P := same_core); [|apply _redraw_same_core].
    intros c c' ->. reflexivity.
Qed.

Lemma exec_frame_op_same_but_frame (op : Op) :
  match op with
  | OpPlotCall _ | OpSetAttractor _ | OpRedrawAttractor => True
  | _ => preserves same_but_frame (exec (B := B) op)
  end.
Proof.
  destruct op as [c|a|p q w|orbit|body epoch| |]; try exact I; unfold exec.
  - apply _set_frame_same_but_frame.
  - unfold set_orbit_frame. destruct (orbit_pqw orbit) as [[p q] w].
    apply _set_frame_same_but_frame.
  - unfold set_body_frame. preserve. unfold set_orbit_frame.
    destruct (orbit_pqw _) as [[p q] w]. apply _set_frame_same_but_frame.
  - apply preserves_weaken with (P := same_core); [|apply _redraw_same_core].
    intros c c' ->. reflexivity.
Qed.

Lemma set_attractor_binds (attractor : option Body) (s : Plotter B) :
  binds_attractor (core s) (core (snd (set_attractor attractor s))).
Proof.
  unfold set_attractor. rewrite _set_attractor_run.
  destruct (_attractor (core s)) as [current|] eqn:E.
  - destruct (obj_is attractor (Some current)); apply binds_attractor_refl.
  - apply binds_attractor_with. exact E.
Qed.

(** How the core a call leaves relates to the core it found. *)
Lemma exec_call_fields (c : PlotCall) (s : Plotter B) :
  let c' := core (snd (exec_call c s)) in
  grows (core s) c' /\ keeps_attractor (core s) c' /\ keeps_config (core s) c' /\
  keeps_frame (core s) c'.
Proof.
  cbv zeta. pose proof (exec_call_outcome c s) as Ho. unfold call_outcome in Ho.
  cbv zeta in Ho.
  destruct Ho as [(e & _ & Hb) | (c1 & t & Hb & _ & Hr)];
    apply binds_attractor_fields in Hb;
    destruct Hb as (En & Et & Ep & Er & Ef & Ha).
  - repeat split; try assumption. exists []. rewrite Et. symmetry. apply app_nil_r.
  - assert (Hc : core (snd (exec_call c s)) = appended c1 t \/
                 exists x, core (snd (exec_call c s)) =
                           with_attractor_radius (Fin x) (appended c1 t)).
    { destruct (recomputed_radius (appended c1 t)) as [x|e].
      - right. exists x. exact Hr.
      - left. apply Hr. }
    assert (Hg : grows (core s) (appended c1 t))
      by (exists [t]; cbn; rewrite Et; reflexivity).
    destruct Hc as [->|(x & ->)]; (split; [exact Hg|]);
      (split; [exact Ha|]); (split; [split; assumption | exact Ef]).
Qed.

Lemma exec_fields (op : Op) (s : Plotter B) :
  let c' := core (snd (exec op s)) in
  grows (core s) c' /\ keeps_attractor (core s) c' /\ keeps_config (core s) c'.
Proof.
  cbv zeta. destruct op as [c|a|p q w|orbit|body epoch| |].
  - unfold exec. pose proof (exec_call_fields c s) as Hf. cbv zeta in Hf. tauto.
  - unfold exec. pose proof (set_attractor_binds a s) as Hb.
    apply binds_attractor_fields in Hb. destruct Hb as (En & Et & Ep & Er & Ef & Ha).
    repeat split; try assumption. exists []. rewrite Et. symmetry. apply app_nil_r.
  - apply same_but_frame_fields. exact (exec_frame_op_same_but_frame (OpSetFrame p q w) s).
  - apply same_but_frame_fields. exact (exec_frame_op_same_but_frame (OpSetOrbitFrame orbit) s).
  - apply same_but_frame_fields.
    exact (exec_frame_op_same_but_frame (OpSetBodyFrame body epoch) s).
  - apply same_but_frame_fields. exact (exec_frame_op_same_but_frame OpRedraw s).
  - unfold exec. destruct (_redraw_attractor_core s) as [->|(x & _ & ->)];
      (split; [exists []; cbn; symmetry; apply app_nil_r|]);
      (split; [intros a E; exact E | split; reflexivity]).
Qed.

(** Every operation leaves the radius as it was, or stores the radius
    recomputed from a core whose trajectory list has at most grown. *)
Lemma exec_radius_step (op : Op) (s : Plotter B) :
  let c' := core (snd (exec op s)) in
  (grows (core s) c' /\ keeps_attractor (core s) c' /\
   _attractor_radius c' = _attractor_radius (core s)) \/
  (exists c2 x,
      grows (core s) c2 /\ keeps_attractor (core s) c2 /\
      recomputed_radius c2 = Ok x /\ c' = with_attractor_radius (Fin x) c2).
Proof.
  cbv zeta. pose proof (exec_fields op s) as (Hg & Ha & _).
  destruct op as [c|a|p q w|orbit|body epoch| |].
  - unfold exec in *.
    pose proof (exec_call_outcome c s) as Ho. unfold call_outcome in Ho. cbv zeta in Ho.
    destruct Ho as [(e & _ & Hb) | (c1 & t & Hb & _ & Hr)];
      apply binds_attractor_fields in Hb;
      destruct Hb as (En & Et & Ep & Er & Ef & Hka).
    + left. auto.
    + destruct (recomputed_radius (appended c1 t)) as [x|e] eqn:Ex.
      * right. exists (appended c1 t), x.
        split; [exists [t]; cbn; rewrite Et; reflexivity|]. auto.
      * left. destruct Hr as [_ Hr]. split; [exact Hg|]. split; [exact Ha|].
        rewrite Hr. cbn. exact Er.
  - left. pose proof (set_attractor_binds a s) as Hb.
    apply binds_attractor_fields in Hb. destruct Hb as (_ & _ & _ & Er & _).
    auto.
  - left. split; [exact Hg|]. split; [exact Ha|].
    apply (exec_frame_op_same_but_frame (OpSetFrame p q w) s).
  - left. split; [exact Hg|]. split; [exact Ha|].
    apply (exec_frame_op_same_but_frame (OpSetOrbitFrame orbit) s).
  - left. split; [exact Hg|]. split; [exact Ha|].
    apply (exec_frame_op_same_but_frame (OpSetBodyFrame body epoch) s).
  - left. split; [exact Hg|]. split; [exact Ha|].
    apply (exec_frame_op_same_but_frame OpRedraw s).
  - unfold exec in *. destruct (_redraw_attractor_core s) as [E|(x & Ex & E)].
    + left. split; [exact Hg|]. split; [exact Ha|]. rewrite E. reflexivity.
    + right. exists (core s), x.
      split; [exists []; symmetry; apply app_nil_r|].
      split; [intros a Ea; exact Ea|]. auto.
Qed.

End Fields.

(** *** The recomputed radius *)

Lemma recomputed_radius_ok (c : Core) (x : R) :
  recomputed_radius c = Ok x ->
  exists a d,
    _attractor c = Some a /\
    min_distance (_trajectories c) = Ok d /\
    x = py_max2 (body_R a) (d * (15 / 100)).
Proof.
  unfold recomputed_radius.
  destruct (min_distance (_trajectories c)) as [d|e]; simpl; [|discriminate].
  destruct (_attractor c) as [a|]; [|discriminate].
  intros E. injection E as <-. exists a, d. auto.
Qed.

Lemma recomputed_radius_formula (c : Core) (x : R) :
  recomputed_radius c = Ok x ->
  exists a d,
    _attractor c = Some a /\
    min_distance_of (_trajectories c) d /\
    x = Rmax (body_R a) (15 / 100 * d).
Proof.
  intros E. apply recomputed_radius_ok in E. destruct E as (a & d & Ea & Ed & ->).
  exists a, d. split; [exact Ea|]. split; [apply min_distance_correct; exact Ed|].
  rewrite py_max2_Rmax. f_equal. ring.
Qed.

Lemma recomputed_radius_total (c : Core) (a : Body) :
  _attractor c = Some a ->
  Forall (fun t => coordinates t <> []) (_trajectories c) ->
  exists x, recomputed_radius c = Ok x.
Proof.
  intros Ea Hts. apply min_distance_total in Hts. destruct Hts as [d Ed].
  unfold recomputed_radius. rewrite Ed, Ea. simpl. eauto.
Qed.




Lemma radius_bounded_stable (c c' : Core) :
  radius_bounded c -> keeps_attractor c c' ->
  _attractor_radius c' = _attractor_radius c -> radius_bounded c'.
Proof.
  intros [Hinf|(a & x & Ea & Er & Hx)] Ha Hr.
  - left. congruence.
  - right. exists a, x. split; [apply Ha; exact Ea|]. split; [congruence | exact Hx].
Qed.

Lemma radius_bounded_recomputed (c : Core) (x : R) :
  recomputed_radius c = Ok x -> radius_bounded (with_attractor_radius (Fin x) c).
Proof.
  intros E. apply recomputed_radius_formula in E.
  destruct E as (a & d & Ea & _ & ->).
  right. exists a, (Rmax (body_R a) (15 / 100 * d)).
  split; [exact Ea|]. split; [reflexivity | apply Rmax_l].
Qed.





Section Reachable.

Context {B T : Type} `{Backend B T} `{Collaborators}.

Lemma exec_radius_bounded (op : Op) (s : Plotter B) :
  radius_bounded (core s) -> radius_bounded (core (snd (exec op s))).
Proof.
  intros Hinv.
  destruct (exec_radius_step op s) as [(_ & Ha & Er) | (c2 & x & _ & _ & Ex & ->)].
  - apply radius_bounded_stable with (core s); assumption.
  - apply radius_bounded_recomputed. exact Ex.
Qed.

Lemma reachable_radius_bounded (s : Plotter B) : reachable s -> radius_bounded (core s).
Proof.
  induction 1 as [n p b | s op _ IH].
  - left. reflexivity.
  - apply exec_radius_bounded. exact IH.
Qed.



End Reachable.

(** ** Worked examples on the recording backend *)

(** Evaluates a method on a concrete plotter, up to the real arithmetic. *)
Ltac py_eval :=
  cbv -[Rplus Rmult Rminus Ropp Rdiv Rinv IZR INR sqrt Rlt_dec Rle_dec Rabs norm dot
        Rmax Rmin].


(** Decides the comparisons of a concrete run. *)
Ltac py_compare :=
  rewrite ?norm_x_axis, ?norm_y_axis, ?norm_z_axis by lra;
  repeat match goal with
         | |- context [Rlt_dec ?a ?b] =>
             lazymatch a with context [Rlt_dec _ _] => fail | _ => idtac end;
             lazymatch b with context [Rlt_dec _ _] => fail | _ => idtac end;
             destruct (Rlt_dec a b); try (exfalso; lra)
         | |- context [Rle_dec ?a ?b] => destruct (Rle_dec a b); try (exfalso; lra)
         end.

Lemma high_orbit_plotter_run :
  exec_call high_orbit earth_plotter = (Ok tt, high_orbit_plotter).
Proof.
  unfold high_orbit_plotter. py_eval. py_compare. reflexivity.
Qed.

Lemma high_orbit_plotter_radius :
  _attractor_radius (core high_orbit_plotter) = Fin 7500.
Proof.
  unfold high_orbit_plotter. py_eval. py_compare. f_equal. lra.
Qed.

Lemma low_orbit_plotter_run :
  exec_call low_orbit high_orbit_plotter = (Ok tt, low_orbit_plotter).
Proof.
  unfold low_orbit_plotter. py_eval. py_compare. reflexivity.
Qed.

Lemma low_orbit_plotter_radius :
  _attractor_radius (core low_orbit_plotter) = Fin 6371.
Proof.
  unfold low_orbit_plotter. py_eval. py_compare. reflexivity.
Qed.

Lemma redrawn_plotter_radius :
  _attractor_radius (core redrawn_plotter) = Fin 6371.
Proof.
  unfold redrawn_plotter. py_eval. py_compare. reflexivity.
Qed.

Lemma redrawn_high_orbit_plotter_run :
  exec_call high_orbit redrawn_plotter = (Ok tt, redrawn_high_orbit_plotter).
Proof.
  unfold redrawn_high_orbit_plotter. py_eval. py_compare. reflexivity.
Qed.

Lemma redrawn_high_orbit_plotter_radius :
  _attractor_radius (core redrawn_high_orbit_plotter) = Fin 7500.
Proof.
  unfold redrawn_high_orbit_plotter. py_eval. py_compare. f_equal. lra.
Qed.

(** ** The attractor radius *)

Section Radius.

Context {B T : Type} `{Backend B T} `{Collaborators}.


Lemma __add_trajectory_ok (crd : list Vec3) (pos : option Vec3) (lbl : string)
  (cols : list string) (dsh : bool) (s s' : Plotter B) (r : T * option T) :
  __add_trajectory crd pos lbl cols dsh s = (Ok r, s') ->
  exists x,
    recomputed_radius (appended (core s) (mkTrajectory crd pos lbl cols dsh)) = Ok x /\
    core s' = with_attractor_radius (Fin x)
                (appended (core s) (mkTrajectory crd pos lbl cols dsh)).
Proof.
  intros E. pose proof (__add_trajectory_run crd pos lbl cols dsh s) as Hr.
  cbv zeta in Hr. fold (appended (core s) (mkTrajectory crd pos lbl cols dsh)) in Hr.
  destruct (recomputed_radius _) as [x|e].
  - exists x. rewrite E in Hr. auto.
  - rewrite E in Hr. discriminate.
Qed.


End Radius.


Section Insertion.

Context {B T : Type} `{Backend B T} `{Collaborators}.

Lemma exec_call_appends (c : PlotCall) (s s' : Plotter B) :
  exec_call c s = (Ok tt, s') ->
  exists t, call_builds c (core s) t /\
            trajectories s' = (trajectories s ++ [t])%list.
Proof.
  intros E. apply exec_call_ok in E. destruct E as (c1 & t & x & Hb & Hc & _ & Ec).
  exists t. split; [exact Hc|]. unfold trajectories. rewrite Ec. cbn.
  apply binds_attractor_fields in Hb. destruct Hb as (_ & -> & _). reflexivity.
Qed.

(** C2, as amended.  A plotting call that returns leaves an attractor
    bound and a radius no smaller than the physical radius of that
    attractor.  The radius is not monotone in the number of trajectories: a
    closer trajectory brings it down, and a first trajectory added after
    [_redraw_attractor] has run on the empty list brings it up. *)
Theorem attractor_radius_at_least_physical (c : PlotCall) (s s' : Plotter B) :
  exec_call c s = (Ok tt, s') ->
  exists a,
    _attractor (core s') = Some a /\
    length_le (Fin (body_R a)) (_attractor_radius (core s')).
Proof.
  intros E.
  apply exec_call_ok in E. destruct E as (c1 & t & x & _ & _ & Ex & Ec).
  apply recomputed_radius_formula in Ex. destruct Ex as (a & d' & Ea & _ & ->).
  rewrite Ec. exists a. split; [exact Ea|]. cbn. apply Rmax_l.
Qed.

(** C4.  Once an attractor is bound, [set_attractor] with another object
    raises and changes nothing; with the bound attractor itself it returns
    and changes nothing. *)
Theorem set_attractor_once (s : Plotter B) (a : Body) (other : option Body) :
  _attractor (core s) = Some a ->
  (obj_is other (Some a) = false ->
   set_attractor other s =
   (Err (NotImplementedError ("Attractor has already been set to " ++ body_name a)), s)) /\
  set_attractor (Some a) s = (Ok tt, s).
Proof.
  intros Ea. unfold set_attractor. rewrite !_set_attractor_run, Ea. split.
  - intros ->. reflexivity.
  - cbn. rewrite Nat.eqb_refl. reflexivity.
Qed.

(** C10.  The trajectory [plot_trajectory] stores carries [str(label)]; for
    an omitted label that is the string "None". *)
Theorem plot_trajectory_label (crd : list Vec3) (lbl color : option string)
  (trail : bool) (s s' : Plotter B) :
  plot_trajectory crd lbl color trail s = (Ok tt, s') ->
  exists t,
    trajectories s' = (trajectories s ++ [t])%list /\
    label t = py_str lbl /\
    (lbl = None -> label t = "None").
Proof.
  intros E. apply (exec_call_appends (CallPlotTrajectory crd lbl color trail)) in E.
  destruct E as (t & (_ & _ & El & _) & Et).
  exists t. split; [exact Et|]. split; [exact El|].
  intros ->. exact El.
Qed.

End Insertion.

Lemma high_orbit_plotter_reachable : reachable high_orbit_plotter.
Proof.
  unfold high_orbit_plotter, earth_plotter, fresh_plotter.
  do 2 apply reachable_exec. apply reachable_init.
Qed.

Lemma redrawn_plotter_reachable : reachable redrawn_plotter.
Proof.
  unfold redrawn_plotter, earth_plotter, fresh_plotter.
  do 2 apply reachable_exec. apply reachable_init.
Qed.

(** Nor is the radius non-increasing: with Earth bound and no trajectory
    stored, [_redraw_attractor] stores Earth's 6371; a first trajectory no
    closer than 50000 km then brings the radius up to 7500. *)
Lemma attractor_radius_can_grow :
  reachable redrawn_plotter /\
  _attractor (core redrawn_plotter) = Some Earth /\
  trajectories redrawn_plotter = [] /\
  _attractor_radius (core redrawn_plotter) = Fin 6371 /\
  exec_call high_orbit redrawn_plotter = (Ok tt, redrawn_high_orbit_plotter) /\
  _attractor_radius (core redrawn_high_orbit_plotter) = Fin 7500.
Proof.
  split; [exact redrawn_plotter_reachable|].
  split; [reflexivity|].
  split; [reflexivity|].
  split; [exact redrawn_plotter_radius|].
  split; [exact redrawn_high_orbit_plotter_run|].
  exact redrawn_high_orbit_plotter_radius.
Qed.

Lemma earth_plotter_attractor : _attractor (core earth_plotter) = Some Earth.
Proof. reflexivity. Qed.

(** C2 as stated fails: Earth with a trajectory no closer than 50000 km has
    radius 7500; adding one that comes within 10000 km brings it down to
    6371. *)
Lemma attractor_radius_can_shrink :
  reachable high_orbit_plotter /\
  _attractor (core high_orbit_plotter) = Some Earth /\
  exec_call low_orbit high_orbit_plotter = (Ok tt, low_orbit_plotter) /\
  _attractor_radius (core high_orbit_plotter) = Fin 7500 /\
  _attractor_radius (core low_orbit_plotter) = Fin 6371 /\
  ~ length_le (_attractor_radius (core high_orbit_plotter))
      (_attractor_radius (core low_orbit_plotter)).
Proof.
  split; [exact high_orbit_plotter_reachable|].
  split; [reflexivity|].
  split; [exact low_orbit_plotter_run|].
  split; [exact high_orbit_plotter_radius|].
  split; [exact low_orbit_plotter_radius|].
  rewrite high_orbit_plotter_radius, low_orbit_plotter_radius. cbn. lra.
Qed.

Lemma attractor_radius_at_least_physical_witness :
  exists a,
    _attractor (core low_orbit_plotter) = Some a /\
    length_le (Fin (body_R a)) (_attractor_radius (core low_orbit_plotter)).
Proof.
  apply (attractor_radius_at_least_physical low_orbit high_orbit_plotter
           low_orbit_plotter).
  exact low_orbit_plotter_run.
Defined.

Lemma set_attractor_once_witness :
  set_attractor (Some Mars) earth_plotter =
  (Err (NotImplementedError "Attractor has already been set to Earth"), earth_plotter) /\
  set_attractor (Some Earth) earth_plotter = (Ok tt, earth_plotter).
Proof.
  destruct (set_attractor_once earth_plotter Earth (Some Mars) earth_plotter_attractor)
    as [Hother Hsame].
  split; [apply Hother; reflexivity | exact Hsame].
Defined.

Lemma plot_trajectory_label_witness :
  exists t,
    trajectories high_orbit_plotter = (trajectories earth_plotter ++ [t])%list /\
    label t = "None".
Proof.
  destruct (plot_trajectory_label [mkVec 50000 0 0; mkVec 0 60000 0] None None false
              earth_plotter high_orbit_plotter high_orbit_plotter_run)
    as (t & Et & _ & Hnone).
  exists t. split; [exact Et | apply Hnone; reflexivity].
Defined.

(** ** Failing calls and the trajectory list *)

Lemma call_builds_config `{Collaborators} (c : PlotCall) (c1 c2 : Core) (t : Trajectory) :
  keeps_config c1 c2 -> call_builds c c1 t -> call_builds c c2 t.
Proof.
  intros [Ep En]. destruct c; cbn; rewrite ?Ep, ?En; auto.
Qed.

Section Failures.

Context {B T : Type} `{Backend B T} `{Collaborators}.

Lemma plot_trajectory_no_attractor (crd : list Vec3) (lbl color : option string)
  (trail : bool) (s : Plotter B) :
  _attractor (core s) = None ->
  plot_trajectory crd lbl color trail s = (Err (ValueError no_attractor_message), s).
Proof.
  intros Ea. unfold plot_trajectory, _plot_trajectory.
  rewrite bind_assoc, bind_get_self, Ea. reflexivity.
Qed.

Lemma exec_call_at_most_one (c : PlotCall) (s : Plotter B) :
  trajectories (snd (exec_call c s)) = trajectories s \/
  exists t, call_builds c (core s) t /\
            trajectories (snd (exec_call c s)) = (trajectories s ++ [t])%list.
Proof.
  pose proof (exec_call_outcome c s) as Ho. unfold call_outcome in Ho. cbv zeta in Ho.
  unfold trajectories.
  destruct Ho as [(e & _ & Hb) | (c1 & t & Hb & Hc & Hr)];
    apply binds_attractor_fields in Hb; destruct Hb as (_ & Et & _).
  - left. exact Et.
  - right. exists t. split; [exact Hc|].
    destruct (recomputed_radius (appended c1 t)) as [x|e].
    + rewrite Hr. cbn. rewrite Et. reflexivity.
    + destruct Hr as [_ ->]. cbn. rewrite Et. reflexivity.
Qed.

Lemma plot_other_attractor (orbit : Orbit) (lbl color : option string) (trail : bool)
  (s : Plotter B) (a : Body) :
  _attractor (core s) = Some a ->
  obj_is (Some (orbit_attractor orbit)) (Some a) = false ->
  exists e s', plot orbit lbl color trail s = (Err e, s') /\
               trajectories s' = trajectories s.
Proof.
  intros Ea Hobj. unfold plot, _plot. rewrite bind_assoc, bind_call_hook.
  destruct (_get_colors color trail (core s) (surface s)) as [[cols|e] b].
  - rewrite bind_assoc, bind_set_attractor. cbn [core surface]. rewrite Ea, Hobj.
    eexists. eexists. split; reflexivity.
  - eexists. eexists. split; reflexivity.
Qed.

Lemma plot_body_orbit_other_attractor (body : Body) (epoch : Time)
  (lbl color : option string) (trail : bool) (s : Plotter B) (a : Body) :
  _attractor (core s) = Some a ->
  obj_is (body_parent body) (Some a) = false ->
  exists e s', plot_body_orbit body epoch lbl color trail s = (Err e, s') /\
               trajectories s' = trajectories s.
Proof.
  intros Ea Hobj. unfold plot_body_orbit, _plot_body_orbit. cbv zeta.
  rewrite bind_assoc, bind_call_hook.
  destruct (_get_colors _ trail (core s) (surface s)) as [[cols|e] b].
  - rewrite bind_assoc, bind_set_attractor. cbn [core surface]. rewrite Ea, Hobj.
    eexists. eexists. split; reflexivity.
  - eexists. eexists. split; reflexivity.
Qed.

(** C3, as amended.  With no attractor bound, [plot_trajectory] raises the
    explicit [ValueError] and changes nothing; [plot] and [plot_body_orbit]
    given an attractor other than the bound one raise and leave the
    trajectory list as it was; and whatever makes a plotting call raise, the
    list is afterwards either unchanged or longer by the one trajectory the
    call built. *)
Theorem failed_call_trajectories :
  (forall crd lbl color trail (s : Plotter B),
      _attractor (core s) = None ->
      plot_trajectory crd lbl color trail s =
      (Err (ValueError no_attractor_message), s)) /\
  (forall orbit lbl color trail (s : Plotter B) a,
      _attractor (core s) = Some a ->
      obj_is (Some (orbit_attractor orbit)) (Some a) = false ->
      exists e s', plot orbit lbl color trail s = (Err e, s') /\
                   trajectories s' = trajectories s) /\
  (forall body epoch lbl color trail (s : Plotter B) a,
      _attractor (core s) = Some a ->
      obj_is (body_parent body) (Some a) = false ->
      exists e s', plot_body_orbit body epoch lbl color trail s = (Err e, s') /\
                   trajectories s' = trajectories s) /\
  (forall c (s s' : Plotter B) e,
      exec_call c s = (Err e, s') ->
      trajectories s' = trajectories s \/
      exists t, call_builds c (core s) t /\
                trajectories s' = (trajectories s ++ [t])%list).
Proof.
  split; [exact plot_trajectory_no_attractor|].
  split; [exact plot_other_attractor|].
  split; [exact plot_body_orbit_other_attractor|].
  intros c s s' e E. pose proof (exec_call_at_most_one c s) as Hone.
  rewrite E in Hone. exact Hone.
Qed.

End Failures.

Lemma empty_orbit_plotter_run :
  exec_call empty_orbit earth_plotter =
  (Err (ValueError "zero-size array to reduction operation minimum which has no identity"),
   empty_orbit_plotter).
Proof. reflexivity. Qed.

(** C3 as stated fails: with Earth bound and every hook in place,
    [plot_trajectory] on an empty coordinate array raises while the radius
    is recomputed, after the trajectory was appended. *)
Lemma failed_plot_keeps_trajectory :
  _attractor (core earth_plotter) = Some Earth /\
  trajectories earth_plotter = [] /\
  plot_trajectory [] None None false earth_plotter =
  (Err (ValueError "zero-size array to reduction operation minimum which has no identity"),
   empty_orbit_plotter) /\
  trajectories empty_orbit_plotter = [mkTrajectory [] None "None" ["#000000"] false] /\
  trajectories empty_orbit_plotter <> trajectories earth_plotter.
Proof.
  split; [reflexivity|]. split; [reflexivity|].
  split; [exact empty_orbit_plotter_run|].
  split; [reflexivity|]. discriminate.
Qed.

Lemma failed_call_trajectories_witness :
  plot_trajectory [mkVec 50000 0 0] None None false fresh_plotter =
  (Err (ValueError no_attractor_message), fresh_plotter) /\
  (exists e s', plot (mkOrbit Mars 0 (mkVec 50000 0 0) (fun _ => Ok [mkVec 50000 0 0])
                        (mkVec 1 0 0, mkVec 0 1 0, mkVec 0 0 1))
                  None None false earth_plotter = (Err e, s') /\
                trajectories s' = trajectories earth_plotter) /\
  (exists e s', plot_body_orbit Mars 0 None None false high_orbit_plotter = (Err e, s') /\
                trajectories s' = trajectories high_orbit_plotter) /\
  (trajectories empty_orbit_plotter = trajectories earth_plotter \/
   exists t, call_builds empty_orbit (core earth_plotter) t /\
             trajectories empty_orbit_plotter = (trajectories earth_plotter ++ [t])%list).
Proof.
  destruct (failed_call_trajectories (B := list Drawn) (T := unit))
    as (Hnone & Hplot & Hbody & Hany).
  split; [apply Hnone; reflexivity|].
  split; [apply Hplot with Earth; reflexivity|].
  split; [apply Hbody with Earth; reflexivity|].
  exact (Hany empty_orbit earth_plotter empty_orbit_plotter _ empty_orbit_plotter_run).
Defined.

(** ** The trajectory list as a log of the calls *)

Section CallLog.

Context {B T : Type} `{Backend B T} `{Collaborators}.

Lemma exec_calls_ok (cs : list PlotCall) (s s' : Plotter B) :
  exec_calls cs s = (Ok tt, s') ->
  exists ts,
    trajectories s' = (trajectories s ++ ts)%list /\
    Forall2 (fun c t => call_builds c (core s) t) cs ts.
Proof.
  revert s. induction cs as [|c cs IH]; intros s E.
  - injection E as <-. exists []. split; [symmetry; apply app_nil_r | constructor].
  - unfold exec_calls in E. cbn [for_each] in E. apply bind_ok in E.
    destruct E as ([] & s1 & E1 & E2).
    pose proof (exec_call_fields c s) as (_ & _ & Hcfg & _).
    rewrite E1 in Hcfg. cbn [snd] in Hcfg.
    apply exec_call_appends in E1. destruct E1 as (t & Ht & Et).
    apply IH in E2. destruct E2 as (ts & Ets & Hts).
    exists (t :: ts). split.
    + rewrite Ets, Et, <- app_assoc. reflexivity.
    + constructor; [exact Ht|].
      eapply Forall2_impl; [|exact Hts]. intros c' t'.
      apply call_builds_config. destruct Hcfg as [Ep En]. split; congruence.
Qed.

(** C5.  After a sequence of plotting calls that all returned, the list
    holds, after what it held before, one trajectory per call, the one that
    call built, in the order of the calls; and no operation, returning or
    raising, leaves a list that is not an extension of the one it found. *)
Theorem trajectories_log_the_calls :
  (forall cs (s s' : Plotter B),
      exec_calls cs s = (Ok tt, s') ->
      exists ts,
        trajectories s' = (trajectories s ++ ts)%list /\
        List.length ts = List.length cs /\
        List.length (trajectories s') =
          (List.length (trajectories s) + List.length cs)%nat /\
        Forall2 (fun c t => call_builds c (core s) t) cs ts) /\
  (forall op (s : Plotter B),
      exists ts, trajectories (snd (exec op s)) = (trajectories s ++ ts)%list).
Proof.
  split.
  - intros cs s s' E. apply exec_calls_ok in E. destruct E as (ts & Ets & Hts).
    exists ts. split; [exact Ets|].
    assert (El : List.length ts = List.length cs)
      by (symmetry; exact (Forall2_length Hts)).
    split; [exact El|]. split; [|exact Hts].
    rewrite Ets, length_app, El. reflexivity.
  - intros op s. pose proof (exec_fields op s) as (Hg & _). exact Hg.
Qed.

End CallLog.

Lemma two_orbits_run :
  exec_calls [high_orbit; low_orbit] earth_plotter = (Ok tt, low_orbit_plotter).
Proof.
  unfold exec_calls. cbn [for_each].
  rewrite (bind_run _ _ _ _ _ high_orbit_plotter_run).
  rewrite (bind_run _ _ _ _ _ low_orbit_plotter_run).
  reflexivity.
Qed.

Lemma trajectories_log_the_calls_witness :
  (exists ts,
      trajectories low_orbit_plotter = (trajectories earth_plotter ++ ts)%list /\
      List.length ts = 2%nat /\
      Forall2 (fun c t => call_builds c (core earth_plotter) t)
        [high_orbit; low_orbit] ts) /\
  (exists ts, trajectories empty_orbit_plotter = (trajectories earth_plotter ++ ts)%list).
Proof.
  destruct (trajectories_log_the_calls (B := list Drawn) (T := unit)) as [Hcalls Hops].
  split.
  - destruct (Hcalls _ _ _ two_orbits_run) as (ts & Ets & El & _ & Hts).
    exists ts. auto.
  - exact (Hops (OpPlotCall empty_orbit) earth_plotter).
Defined.

(** ** The frame of the 2D mixin *)

Lemma close_to_refl (b : R) : close_to b b.
Proof.
  unfold close_to, atol, rtol. replace (b - b) with 0 by ring. rewrite Rabs_R0.
  pose proof (Rabs_pos b). lra.
Qed.

Lemma orthonormal_within_tolerance (p q w : Vec3) :
  orthonormal p q w -> unit_length p q w /\ mutually_orthogonal p q w.
Proof.
  intros (Hp & Hq & Hw & Hpq & Hqw & Hwp).
  unfold unit_length, mutually_orthogonal. rewrite Hp, Hq, Hw, Hpq, Hqw, Hwp.
  repeat split; apply close_to_refl.
Qed.

Lemma allclose_units (p q w : Vec3) :
  allclose (map norm [p; q; w]) 1 = true <-> unit_length p q w.
Proof.
  rewrite allclose_iff. unfold unit_length, close_to. cbn [map]. split.
  - intros Hall. inversion Hall as [|? ? Hp Hall1]; subst.
    inversion Hall1 as [|? ? Hq Hall2]; subst.
    inversion Hall2 as [|? ? Hw _]; subst. auto.
  - intros (Hp & Hq & Hw).
    constructor; [exact Hp|]. constructor; [exact Hq|].
    constructor; [exact Hw|]. constructor.
Qed.

Lemma allclose_orthogonal (p q w : Vec3) :
  allclose [dot p q; dot q w; dot w p] 0 = true <-> mutually_orthogonal p q w.
Proof.
  rewrite allclose_iff. unfold mutually_orthogonal, close_to. split.
  - intros Hall. inversion Hall as [|? ? Hp Hall1]; subst.
    inversion Hall1 as [|? ? Hq Hall2]; subst.
    inversion Hall2 as [|? ? Hw _]; subst. auto.
  - intros (Hp & Hq & Hw).
    constructor; [exact Hp|]. constructor; [exact Hq|].
    constructor; [exact Hw|]. constructor.
Qed.

Section Frames.

Context {B T : Type} `{Backend B T} `{Collaborators}.

Lemma _set_frame_stores (p q w : Vec3) (s : Plotter B) :
  unit_length p q w -> mutually_orthogonal p q w ->
  _frame (core (snd (_set_frame p q w s))) = Some (p, q, w) /\
  (trajectories s = [] ->
   _set_frame p q w s =
   (Ok tt, mkPlotter (with_frame (Some (p, q, w)) (core s)) (surface s))).
Proof.
  intros Hu Ho. apply allclose_units in Hu. apply allclose_orthogonal in Ho.
  unfold _set_frame. rewrite Hu, Ho. cbn [negb].
  unfold bind, update_self, get_self. cbn [core surface with_frame _trajectories].
  unfold trajectories.
  destruct (_trajectories (core s)) as [|t ts].
  - split; [reflexivity | intros _; reflexivity].
  - split; [|discriminate].
    pose proof (_redraw_same_core
                  (mkPlotter (with_frame (Some (p, q, w)) (core s)) (surface s))) as Hr.
    unfold same_core in Hr. cbn [core] in Hr. rewrite Hr. reflexivity.
Qed.

Lemma _set_frame_rejects (p q w : Vec3) (s : Plotter B) :
  (~ unit_length p q w ->
   _set_frame p q w s = (Err (ValueError "Vectors must be unit."), s)) /\
  (unit_length p q w -> ~ mutually_orthogonal p q w ->
   _set_frame p q w s = (Err (ValueError "Vectors must be mutually orthogonal."), s)).
Proof.
  split.
  - intros Hu. rewrite <- allclose_units in Hu. apply not_true_is_false in Hu.
    unfold _set_frame. rewrite Hu. reflexivity.
  - intros Hu Ho. apply allclose_units in Hu.
    rewrite <- allclose_orthogonal in Ho. apply not_true_is_false in Ho.
    unfold _set_frame. rewrite Hu, Ho. reflexivity.
Qed.

(** C6.  [_set_frame] stores three vectors that are of unit length and
    pairwise orthogonal within tolerance, exactly orthonormal ones among
    them; given a vector that is not of unit length, or a pair that is not
    orthogonal, it raises a [ValueError] that says which, and the plotter,
    its frame included, is as before. *)
Theorem set_frame_validation (p q w : Vec3) (s : Plotter B) :
  (unit_length p q w -> mutually_orthogonal p q w ->
   _frame (core (snd (_set_frame p q w s))) = Some (p, q, w) /\
   (trajectories s = [] ->
    _set_frame p q w s =
    (Ok tt, mkPlotter (with_frame (Some (p, q, w)) (core s)) (surface s)))) /\
  (orthonormal p q w ->
   _frame (core (snd (_set_frame p q w s))) = Some (p, q, w)) /\
  (~ unit_length p q w ->
   _set_frame p q w s = (Err (ValueError "Vectors must be unit."), s)) /\
  (unit_length p q w -> ~ mutually_orthogonal p q w ->
   _set_frame p q w s = (Err (ValueError "Vectors must be mutually orthogonal."), s)).
Proof.
  split; [apply _set_frame_stores|].
  split.
  - intros Hon. apply orthonormal_within_tolerance in Hon. destruct Hon as [Hu Ho].
    apply _set_frame_stores; assumption.
  - apply _set_frame_rejects.
Qed.

End Frames.

Lemma axes_orthonormal : orthonormal e_x e_y e_z.
Proof.
  unfold orthonormal, e_x, e_y, e_z.
  rewrite norm_x_axis, norm_y_axis, norm_z_axis by lra.
  unfold dot. cbn. repeat split; ring.
Qed.

Lemma long_x_not_unit : ~ unit_length (mkVec 2 0 0) e_y e_z.
Proof.
  intros (Hp & _). unfold close_to, atol, rtol in Hp.
  rewrite norm_x_axis in Hp by lra.
  replace (2 - 1) with 1 in Hp by ring. rewrite Rabs_R1 in Hp. lra.
Qed.

Lemma repeated_x_not_orthogonal : ~ mutually_orthogonal e_x e_x e_z.
Proof.
  intros (Hpq & _). unfold close_to, atol, rtol, e_x, dot in Hpq. cbn in Hpq.
  replace (1 * 1 + 0 * 0 + 0 * 0 - 0) with 1 in Hpq by ring.
  rewrite Rabs_R1, Rabs_R0 in Hpq. lra.
Qed.

Lemma repeated_x_unit : unit_length e_x e_x e_z.
Proof.
  unfold unit_length, e_x, e_z. rewrite norm_x_axis, norm_z_axis by lra.
  repeat split; apply close_to_refl.
Qed.

Lemma set_frame_validation_witness :
  _set_frame e_x e_y e_z earth_plotter =
  (Ok tt, mkPlotter (with_frame (Some (e_x, e_y, e_z)) (core earth_plotter))
            (surface earth_plotter)) /\
  _frame (core (snd (_set_frame e_x e_y e_z high_orbit_plotter))) = Some (e_x, e_y, e_z) /\
  _set_frame (mkVec 2 0 0) e_y e_z earth_plotter =
  (Err (ValueError "Vectors must be unit."), earth_plotter) /\
  _set_frame e_x e_x e_z earth_plotter =
  (Err (ValueError "Vectors must be mutually orthogonal."), earth_plotter).
Proof.
  pose proof (orthonormal_within_tolerance _ _ _ axes_orthonormal) as [Hu Ho].
  split.
  - destruct (set_frame_validation e_x e_y e_z earth_plotter) as (Hstore & _).
    apply (Hstore Hu Ho). reflexivity.
  - split.
    + destruct (set_frame_validation e_x e_y e_z high_orbit_plotter) as (_ & Hon & _).
      exact (Hon axes_orthonormal).
    + split.
      * destruct (set_frame_validation (mkVec 2 0 0) e_y e_z earth_plotter)
          as (_ & _ & Hunit & _).
        exact (Hunit long_x_not_unit).
      * destruct (set_frame_validation e_x e_x e_z earth_plotter)
          as (_ & _ & _ & Horth).
        exact (Horth repeated_x_unit repeated_x_not_orthogonal).
Defined.

(** ** Projection onto the frame's plane *)

Lemma dot_self_nonneg (v : Vec3) : 0 <= dot v v.
Proof. unfold dot. nra. Qed.

Lemma norm_unit_dot (v : Vec3) : norm v = 1 -> dot v v = 1.
Proof.
  unfold norm. intros E.
  rewrite <- (sqrt_sqrt (dot v v)) by apply dot_self_nonneg.
  rewrite E. ring.
Qed.

Lemma project_in_plane_point (p q w : Vec3) (ab : R * R) :
  orthonormal p q w ->
  dot (vsub (in_plane p q ab) (vscale (dot (in_plane p q ab) w) w)) p = fst ab /\
  dot (vsub (in_plane p q ab) (vscale (dot (in_plane p q ab) w) w)) q = snd ab.
Proof.
  intros (Hp & Hq & _ & Hpq & Hqw & Hwp).
  apply norm_unit_dot in Hp. apply norm_unit_dot in Hq.
  assert (Hpw : dot p w = 0) by (rewrite dot_comm; exact Hwp).
  assert (Hqp : dot q p = 0) by (rewrite dot_comm; exact Hpq).
  assert (Hwq : dot w q = 0) by (rewrite dot_comm; exact Hqw).
  unfold in_plane.
  rewrite !dot_vsub_l, !dot_vscale_l, !dot_vadd_l, !dot_vscale_l.
  rewrite Hp, Hq, Hpq, Hqw, Hwp, Hpw, Hqp, Hwq. split; ring.
Qed.

Section Projection.

Context {B T : Type} `{Backend B T} `{Collaborators}.

(** C7.  Under an orthonormal frame [(p, q, w)], [_project] maps the points
    [a p + b q] of the plane of [p] and [q] to their coordinates: it returns
    the list of the [a] and the list of the [b], and leaves the plotter as
    it was. *)
Theorem project_in_plane (p q w : Vec3) (abs : list (R * R)) (s : Plotter B) :
  _frame (core s) = Some (p, q, w) ->
  orthonormal p q w ->
  _project (map (in_plane p q) abs) s = (Ok (map fst abs, map snd abs), s).
Proof.
  intros Hf Hon. unfold _project, get_frame. rewrite bind_assoc, bind_get_self, Hf.
  unfold bind, ret. f_equal. f_equal. f_equal.
  - rewrite !map_map. apply map_ext. intros ab.
    apply (project_in_plane_point p q w ab Hon).
  - rewrite !map_map. apply map_ext. intros ab.
    apply (project_in_plane_point p q w ab Hon).
Qed.

End Projection.

Lemma framed_plotter_frame : _frame (core framed_plotter) = Some (e_x, e_y, e_z).
Proof.
  unfold framed_plotter, exec, set_frame.
  pose proof (orthonormal_within_tolerance _ _ _ axes_orthonormal) as [Hu Ho].
  apply _set_frame_stores; assumption.
Qed.

Lemma project_in_plane_witness :
  _project [mkVec 3 4 0; mkVec (-2) 5 0] framed_plotter =
  (Ok ([3; -2], [4; 5]), framed_plotter).
Proof.
  pose proof (project_in_plane e_x e_y e_z [(3, 4); (-2, 5)] framed_plotter
                framed_plotter_frame axes_orthonormal) as E.
  cbn [map fst snd] in E.
  replace (in_plane e_x e_y (3, 4)) with (mkVec 3 4 0) in E
    by (unfold in_plane, e_x, e_y, vadd, vscale; cbn; f_equal; ring).
  replace (in_plane e_x e_y (-2, 5)) with (mkVec (-2) 5 0) in E
    by (unfold in_plane, e_x, e_y, vadd, vscale; cbn; f_equal; ring).
  exact E.
Defined.

(** ** The position marker *)

Lemma Rmin_scale_half (x y : R) : Rmin (x * (1 / 2)) (y * (1 / 2)) = 1 / 2 * Rmin x y.
Proof.
  unfold Rmin. destruct (Rle_dec (x * (1 / 2)) (y * (1 / 2))), (Rle_dec x y); lra.
Qed.

Section Marker.

Context {B T : Type} `{Backend B T} `{Collaborators}.

(** C8, as amended.  With the attractor bound, [_plot_position] draws the
    point with radius [min(A * 0.5, (|position| - R) * 0.5)], which is half
    of [min(A, |position| - R)], where [A] is the attractor radius and [R]
    the physical radius; while the attractor radius is still the initial
    infinity the marker radius is [(|position| - R) * 0.5]. *)
Theorem position_marker_radius (position : Vec3) (lbl color : string)
  (rest : list string) (a : Body) (s : Plotter B) :
  _attractor (core s) = Some a ->
  (forall A,
      _attractor_radius (core s) = Fin A ->
      _plot_position position lbl (color :: rest) s =
      call_hook
        (_draw_point (Rmin (A * (1 / 2)) ((norm position - body_R a) * (1 / 2)))
           color lbl (Some position)) s /\
      Rmin (A * (1 / 2)) ((norm position - body_R a) * (1 / 2)) =
      1 / 2 * Rmin A (norm position - body_R a)) /\
  (_attractor_radius (core s) = Inf ->
   _plot_position position lbl (color :: rest) s =
   call_hook
     (_draw_point ((norm position - body_R a) * (1 / 2)) color lbl (Some position)) s).
Proof.
  intros Ea. split.
  - intros A EA. split; [|apply Rmin_scale_half].
    unfold _plot_position. rewrite bind_get_self. cbv beta. rewrite Ea, EA.
    cbn [attr_of length_scale length_min2]. unfold bind, ret, item0. cbv beta iota.
    rewrite py_min2_Rmin. reflexivity.
  - intros EA. unfold _plot_position. rewrite bind_get_self. cbv beta.
    rewrite Ea, EA. reflexivity.
Qed.

End Marker.

(** C8 as stated fails: with attractor radius 7500 around Earth, a position
    50000 km out gets a marker of radius 3750, not half of that. *)
Lemma marker_radius_not_halved_twice :
  _attractor (core high_orbit_plotter) = Some Earth /\
  _attractor_radius (core high_orbit_plotter) = Fin 7500 /\
  _plot_position (mkVec 50000 0 0) "craft" ["red"] high_orbit_plotter =
  (Ok tt,
   mkPlotter (core high_orbit_plotter)
     (Point 3750 "red" "craft" (Some (mkVec 50000 0 0)) :: surface high_orbit_plotter)) /\
  stated_marker_radius 7500 (norm (mkVec 50000 0 0)) (body_R Earth) = 1875 /\
  3750 <> stated_marker_radius 7500 (norm (mkVec 50000 0 0)) (body_R Earth).
Proof.
  assert (Hstated : stated_marker_radius 7500 (norm (mkVec 50000 0 0)) (body_R Earth)
                    = 1875).
  { unfold stated_marker_radius. rewrite norm_x_axis by lra. cbn [body_R Earth].
    unfold Rmin. destruct (Rle_dec _ _); lra. }
  split; [reflexivity|]. split; [exact high_orbit_plotter_radius|].
  split; [|split; [exact Hstated | rewrite Hstated; lra]].
  unfold high_orbit_plotter. py_eval. py_compare.
  replace (50000 * (15 / 100) * (1 / 2)) with 3750 by lra. reflexivity.
Qed.

Lemma position_marker_radius_witness :
  _plot_position (mkVec 50000 0 0) "craft" ["red"] high_orbit_plotter =
  call_hook
    (_draw_point (Rmin (7500 * (1 / 2)) ((norm (mkVec 50000 0 0) - body_R Earth) * (1 / 2)))
       "red" "craft" (Some (mkVec 50000 0 0))) high_orbit_plotter /\
  _plot_position (mkVec 50000 0 0) "craft" ["red"] earth_plotter =
  call_hook
    (_draw_point ((norm (mkVec 50000 0 0) - body_R Earth) * (1 / 2))
       "red" "craft" (Some (mkVec 50000 0 0))) earth_plotter.
Proof.
  split.
  - destruct (position_marker_radius (mkVec 50000 0 0) "craft" "red" [] Earth
                high_orbit_plotter eq_refl) as [Hfin _].
    apply (Hfin 7500 high_orbit_plotter_radius).
  - destruct (position_marker_radius (mkVec 50000 0 0) "craft" "red" [] Earth
                earth_plotter eq_refl) as [_ Hinf].
    apply Hinf. reflexivity.
Defined.

(** ** The orbit of a body *)

Lemma nth_map_seq (f : nat -> R) (n i : nat) :
  (i < n)%nat -> nth i (map f (seq 0 n)) 0 = f i.
Proof.
  intros Hi. rewrite (nth_indep _ 0 (f 0%nat)) by (rewrite length_map, length_seq; exact Hi).
  rewrite map_nth, seq_nth by exact Hi. reflexivity.
Qed.

Lemma time_range_spans (epoch period : R) (n : Z) (epochs : list Time) :
  (2 <= n)%Z ->
  time_range epoch n (epoch + period) = Ok epochs ->
  spans_period epochs n epoch period.
Proof.
  intros Hn. unfold time_range, Time.
  destruct (n <? 0)%Z eqn:Hneg; [apply Z.ltb_lt in Hneg; lia|].
  set (m := Z.to_nat n).
  assert (Hm : (2 <= m)%nat) by (unfold m; lia).
  assert (Hden : INR (m - 1) <> 0) by (apply not_0_INR; lia).
  destruct m as [|[|m']] eqn:Em; [lia | lia |].
  rewrite <- Em in *. intros E. injection E as <-.
  unfold spans_period, evenly_spaced, Time. rewrite !length_map, !length_seq.
  split; [unfold m in Em; lia|].
  split; [|split].
  - rewrite nth_map_seq by lia. cbn [INR]. field. exact Hden.
  - rewrite nth_map_seq by lia. field. exact Hden.
  - exists (period / INR (m - 1)). intros i Hi.
    rewrite !nth_map_seq by lia. rewrite S_INR. field. exact Hden.
Qed.

Section BodyOrbit.

Context {B T : Type} `{Backend B T} `{Collaborators}.

(** C9, as amended.  With at least two points configured,
    [plot_body_orbit] that returns has sampled the ephemeris of the body at
    [num_points] evenly spaced instants from [epoch] to [epoch + period],
    one coordinate per instant, and stored them in a trajectory that is not
    dashed and whose position is the first sample; a plotter constructed
    without [num_points] has 150. *)
Theorem body_orbit_sampling (body : Body) (epoch : Time) (lbl color : option string)
  (trail : bool) (s s' : Plotter B) :
  (2 <= _num_points (core s))%Z ->
  plot_body_orbit body epoch lbl color trail s = (Ok tt, s') ->
  (exists t period epochs r0,
      trajectories s' = (trajectories s ++ [t])%list /\
      mean_period body epoch = Ok period /\
      spans_period epochs (_num_points (core s)) epoch period /\
      ephem_sample body epochs (body_parent body) (_plane (core s))
        = Ok (coordinates t) /\
      Z.of_nat (List.length (coordinates t)) = _num_points (core s) /\
      nth_error (coordinates t) 0 = Some r0 /\
      position t = Some r0 /\
      dashed t = false) /\
  (forall plane (b : B), _num_points (core (__init__ None plane b)) = 150%Z).
Proof.
  intros Hn E. split; [|reflexivity].
  apply (exec_call_appends (CallPlotBodyOrbit body epoch lbl color trail)) in E.
  destruct E as (t & (period & epochs & Ep & Er & Ec & Epos & Hne & _ & Ed) & Et).
  pose proof (time_range_spans _ _ _ _ Hn Er) as Hspan.
  destruct (coordinates t) as [|r0 rest] eqn:Ecoords; [contradiction|].
  exists t, period, epochs, r0. rewrite Ecoords.
  split; [exact Et|]. split; [exact Ep|]. split; [exact Hspan|].
  split; [exact Ec|]. split; [|split; [reflexivity|split; [exact Epos | exact Ed]]].
  unfold ephem_sample in Ec. apply rmap_length in Ec. rewrite Ec. apply Hspan.
Qed.

End BodyOrbit.

Lemma one_point_orbit_plotter_run :
  exec_call earth_orbit one_point_plotter = (Ok tt, one_point_orbit_plotter).
Proof.
  unfold one_point_orbit_plotter. py_eval. cbn [INR]. py_compare. reflexivity.
Qed.

Lemma three_point_orbit_plotter_run :
  exec_call earth_orbit three_point_plotter = (Ok tt, three_point_orbit_plotter).
Proof.
  unfold three_point_orbit_plotter. py_eval. cbn [INR]. py_compare. reflexivity.
Qed.

Lemma one_point_orbit_coordinates :
  map coordinates (trajectories one_point_orbit_plotter) = [[mkVec 100000 0 0]].
Proof.
  unfold one_point_orbit_plotter. py_eval. cbn [INR]. py_compare.
  all: cbn; do 3 f_equal; lra.
Qed.

(** C9 as stated fails: configured with one point, [plot_body_orbit]
    returns with the single sample taken at the epoch, and no range of one
    instant reaches from the epoch to a period later. *)
Lemma single_point_orbit_does_not_span :
  _num_points (core one_point_plotter) = 1%Z /\
  mean_period Earth 0 = Ok 10 /\
  plot_body_orbit Earth 0 None None false one_point_plotter =
  (Ok tt, one_point_orbit_plotter) /\
  map coordinates (trajectories one_point_orbit_plotter) = [[mkVec 100000 0 0]] /\
  ~ exists epochs, spans_period epochs (_num_points (core one_point_plotter)) 0 10.
Proof.
  split; [reflexivity|]. split; [reflexivity|].
  split; [exact one_point_orbit_plotter_run|].
  split; [exact one_point_orbit_coordinates|].
  intros (epochs & Hlen & Hfirst & Hlast & _).
  cbn in Hlen. assert (El : List.length epochs = 1%nat) by lia.
  rewrite El in Hlast. cbn in Hlast. lra.
Qed.

Lemma body_orbit_sampling_witness :
  exists t period epochs r0,
    trajectories three_point_orbit_plotter = (trajectories three_point_plotter ++ [t])%list /\
    mean_period Earth 0 = Ok period /\
    spans_period epochs 3 0 period /\
    ephem_sample Earth epochs (body_parent Earth) EARTH_EQUATOR
      = Ok (coordinates t) /\
    Z.of_nat (List.length (coordinates t)) = 3%Z /\
    nth_error (coordinates t) 0 = Some r0 /\
    position t = Some r0 /\
    dashed t = false.
Proof.
  apply (body_orbit_sampling Earth 0 None None false three_point_plotter
           three_point_orbit_plotter).
  - cbn. lia.
  - exact three_point_orbit_plotter_run.
Defined.

(** ** Further properties of the plotter *)

(** *** The base class on its own *)

Section BaseClass.

Context `{Collaborators}.

(** X1.  On [BaseOrbitPlotter] itself, whose hooks are not implemented,
    every plotting call raises before anything is changed:
    [NotImplementedError] from [_get_colors], or the [ValueError] of
    [plot_trajectory] when no attractor is bound. *)
Theorem base_class_cannot_plot (c : PlotCall) (s : Plotter unit) :
  exec_call c s =
  (Err match c, _attractor (core s) with
       | CallPlotTrajectory _ _ _ _, None => ValueError no_attractor_message
       | _, _ => NotImplementedError ""
       end,
   s).
Proof.
  destruct s as [c0 []].
  destruct c as [orbit lbl color trail | crd lbl color trail | body epoch lbl color trail];
    unfold exec_call.
  - reflexivity.
  - unfold plot_trajectory, _plot_trajectory. rewrite bind_assoc, bind_get_self.
    cbn [core]. destruct (_attractor c0); reflexivity.
  - reflexivity.
Qed.

End BaseClass.

(** *** What no operation changes *)

Section Stability.

Context {B T : Type} `{Backend B T} `{Collaborators}.

Lemma exec_ops_fields (ops : list Op) (s : Plotter B) :
  grows (core s) (core (exec_ops ops s)) /\
  keeps_attractor (core s) (core (exec_ops ops s)) /\
  keeps_config (core s) (core (exec_ops ops s)).
Proof.
  revert s. induction ops as [|op ops IH]; intros s; cbn.
  - split; [exists []; symmetry; apply app_nil_r|].
    split; [intros a E; exact E | split; reflexivity].
  - destruct (exec_fields op s) as (Hg & Ha & Hc).
    destruct (IH (snd (exec op s))) as (Hg' & Ha' & Hc').
    split; [|split].
    + destruct Hg as [t1 E1]. destruct Hg' as [t2 E2].
      exists (t1 ++ t2)%list. unfold exec_ops in E2. rewrite E2, E1.
      symmetry. apply app_assoc.
    + intros a E. apply Ha', Ha, E.
    + destruct Hc as [E1 E2]. destruct Hc' as [E3 E4]. unfold exec_ops in *.
      split; congruence.
Qed.

(** X2.  An attractor, once bound, stays bound to the same body whatever
    operations follow, whether they return or raise. *)
Theorem attractor_bound_for_good (ops : list Op) (s : Plotter B) (a : Body) :
  _attractor (core s) = Some a ->
  _attractor (core (exec_ops ops s)) = Some a.
Proof. intros Ea. apply (exec_ops_fields ops s). exact Ea. Qed.

(** X3.  The plane and the number of points are those given to the
    constructor, or its defaults, after any sequence of operations. *)
Theorem configuration_is_fixed (ops : list Op) (num_points : option Z)
  (plane : option Planes) (b : B) :
  _plane (core (exec_ops ops (__init__ num_points plane b))) =
    match plane with Some p => p | None => EARTH_EQUATOR end /\
  _num_points (core (exec_ops ops (__init__ num_points plane b))) =
    match num_points with Some n => n | None => 150%Z end.
Proof.
  destruct (exec_ops_fields ops (__init__ num_points plane b)) as (_ & _ & Ep & En).
  rewrite Ep, En. split; reflexivity.
Qed.

(** X4.  The frame setters and [_redraw] leave the trajectories, the
    attractor, its radius, the plane and the number of points as they
    were. *)
Theorem frame_setters_touch_only_the_frame (s : Plotter B) :
  (forall p q w, same_but_frame (core s) (core (snd (set_frame p q w s)))) /\
  (forall orbit, same_but_frame (core s) (core (snd (set_orbit_frame orbit s)))) /\
  (forall body epoch,
      same_but_frame (core s) (core (snd (set_body_frame body epoch s)))) /\
  same_but_frame (core s) (core (snd (_redraw s))).
Proof.
  split; [|split; [|split]].
  - intros p q w. exact (exec_frame_op_same_but_frame (OpSetFrame p q w) s).
  - intros orbit. exact (exec_frame_op_same_but_frame (OpSetOrbitFrame orbit) s).
  - intros body epoch.
    exact (exec_frame_op_same_but_frame (OpSetBodyFrame body epoch) s).
  - exact (exec_frame_op_same_but_frame OpRedraw s).
Qed.

(** X11.  [set_attractor] is idempotent: calling it twice with the same
    argument gives the result and the state of calling it once. *)
Theorem set_attractor_idempotent (attractor : option Body) (s : Plotter B) :
  bind (set_attractor attractor) (fun _ => set_attractor attractor) s =
  set_attractor attractor s.
Proof.
  rewrite bind_set_attractor. unfold set_attractor.
  destruct (_attractor (core s)) as [current|] eqn:Ea.
  - destruct (obj_is attractor (Some current)) eqn:Eo; [reflexivity|].
    rewrite _set_attractor_run, Ea, Eo. reflexivity.
  - rewrite !_set_attractor_run. cbn [core with_attractor _attractor surface].
    rewrite Ea. destruct attractor as [a|]; [|reflexivity].
    cbn [obj_is]. rewrite Nat.eqb_refl. reflexivity.
Qed.

End Stability.

Lemma attractor_bound_for_good_witness :
  _attractor
    (core (exec_ops [OpSetAttractor (Some Mars); OpPlotCall empty_orbit;
                     OpSetFrame e_x e_y e_z; OpSetAttractor None]
             earth_plotter)) = Some Earth.
Proof.
  apply (attractor_bound_for_good
           [OpSetAttractor (Some Mars); OpPlotCall empty_orbit;
            OpSetFrame e_x e_y e_z; OpSetAttractor None] earth_plotter Earth).
  reflexivity.
Defined.

(** *** The stored frame *)

Section StoredFrame.

Context {B T : Type} `{Backend B T} `{Collaborators}.

Lemma _set_frame_outcome (p q w : Vec3) (s : Plotter B) :
  core (snd (_set_frame p q w s)) = core s \/
  (unit_length p q w /\ mutually_orthogonal p q w /\
   core (snd (_set_frame p q w s)) = with_frame (Some (p, q, w)) (core s)).
Proof.
  unfold _set_frame.
  destruct (allclose (map norm [p; q; w]) 1) eqn:Hu; cbn [negb];
    [|left; reflexivity].
  destruct (allclose [dot p q; dot q w; dot w p] 0) eqn:Ho; cbn [negb];
    [|left; reflexivity].
  right. apply allclose_units in Hu. apply allclose_orthogonal in Ho.
  split; [exact Hu|]. split; [exact Ho|].
  unfold bind, update_self, get_self. cbn [core surface with_frame _trajectories].
  destruct (_trajectories (core s)) as [|t ts]; [reflexivity|].
  apply (_redraw_same_core
           (mkPlotter (with_frame (Some (p, q, w)) (core s)) (surface s))).
Qed.

Lemma _set_frame_frame_valid (p q w : Vec3) (s : Plotter B) :
  frame_valid (core s) -> frame_valid (core (snd (_set_frame p q w s))).
Proof.
  intros Hv. destruct (_set_frame_outcome p q w s) as [->|(Hu & Ho & ->)];
    [exact Hv|].
  intros p' q' w' E. cbn in E. injection E as <- <- <-. auto.
Qed.

Lemma exec_frame_valid (op : Op) (s : Plotter B) :
  frame_valid (core s) -> frame_valid (core (snd (exec op s))).
Proof.
  intros Hv. destruct op as [c|a|p q w|orbit|body epoch| |]; unfold exec.
  - destruct (exec_call_fields c s) as (_ & _ & _ & Ef).
    unfold keeps_frame in Ef. unfold frame_valid. rewrite Ef. exact Hv.
  - pose proof (set_attractor_binds a s) as Hb.
    apply binds_attractor_fields in Hb. destruct Hb as (_ & _ & _ & _ & Ef & _).
    unfold frame_valid. rewrite Ef. exact Hv.
  - apply _set_frame_frame_valid. exact Hv.
  - unfold set_orbit_frame. destruct (orbit_pqw orbit) as [[p q] w].
    apply _set_frame_frame_valid. exact Hv.
  - unfold set_body_frame. rewrite bind_get_self. cbv beta.
    rewrite bind_lift_result.
    destruct (from_body_ephem body epoch) as [orbit|e]; [|exact Hv].
    rewrite bind_lift_result.
    destruct (change_plane orbit (_plane (core s))) as [orbit'|e]; [|exact Hv].
    unfold set_orbit_frame. destruct (orbit_pqw orbit') as [[p q] w].
    apply _set_frame_frame_valid. exact Hv.
  - pose proof (_redraw_same_core s) as Hr. unfold same_core in Hr.
    rewrite Hr. exact Hv.
  - destruct (_redraw_attractor_core s) as [->|(x & _ & ->)]; exact Hv.
Qed.

(** X5.  In every state the plotter can reach, a stored frame consists of
    three vectors of unit length that are pairwise orthogonal, within the
    tolerance of [_set_frame]. *)
Theorem stored_frame_is_valid (s : Plotter B) (p q w : Vec3) :
  reachable s ->
  _frame (core s) = Some (p, q, w) ->
  unit_length p q w /\ mutually_orthogonal p q w.
Proof.
  intros Hreach. revert p q w. change (frame_valid (core s)).
  induction Hreach as [n pl b | s op _ IH].
  - intros p q w E. discriminate.
  - apply exec_frame_valid. exact IH.
Qed.

(** X6.  In every state the plotter can reach, a finite attractor radius
    means that an attractor is bound and that the radius is at least its
    physical radius. *)
Theorem finite_radius_has_attractor (s : Plotter B) (x : R) :
  reachable s ->
  _attractor_radius (core s) = Fin x ->
  exists a, _attractor (core s) = Some a /\ body_R a <= x.
Proof.
  intros Hreach Ex. apply reachable_radius_bounded in Hreach.
  destruct Hreach as [Einf|(a & x' & Ea & Er & Hx)]; [congruence|].
  exists a. split; [exact Ea|]. rewrite Er in Ex. injection Ex as <-. exact Hx.
Qed.

End StoredFrame.

Lemma framed_plotter_reachable : reachable framed_plotter.
Proof.
  unfold framed_plotter, earth_plotter, fresh_plotter.
  do 2 apply reachable_exec. apply reachable_init.
Qed.

Lemma stored_frame_is_valid_witness :
  unit_length e_x e_y e_z /\ mutually_orthogonal e_x e_y e_z.
Proof.
  apply (stored_frame_is_valid framed_plotter e_x e_y e_z).
  - exact framed_plotter_reachable.
  - exact framed_plotter_frame.
Defined.

Lemma finite_radius_has_attractor_witness :
  (exists a, _attractor (core high_orbit_plotter) = Some a /\ body_R a <= 7500) /\
  (exists a, _attractor (core redrawn_plotter) = Some a /\ body_R a <= 6371).
Proof.
  split.
  - apply (finite_radius_has_attractor high_orbit_plotter 7500).
    + exact high_orbit_plotter_reachable.
    + exact high_orbit_plotter_radius.
  - apply (finite_radius_has_attractor redrawn_plotter 6371).
    + exact redrawn_plotter_reachable.
    + exact redrawn_plotter_radius.
Defined.

(** *** Trajectories without a sample *)

Lemma min_distance_all_sampled (ts : list Trajectory) (d : R) :
  min_distance ts = Ok d -> all_sampled ts.
Proof.
  unfold min_distance, all_sampled.
  destruct (rmap (fun t => np_min (map norm (coordinates t))) ts)
    as [ds|e] eqn:Eds; simpl; [|discriminate].
  intros _. apply rmap_ok in Eds.
  induction Eds as [|t m ts ds Ht _ IH]; constructor; [|exact IH].
  intros E. rewrite E in Ht. discriminate.
Qed.

Lemma min_distance_unsampled (ts : list Trajectory) (t : Trajectory) :
  In t ts -> coordinates t = [] ->
  min_distance ts =
  Err (ValueError "zero-size array to reduction operation minimum which has no identity").
Proof.
  intros Ht Et. unfold min_distance.
  assert (E : rmap (fun t => np_min (map norm (coordinates t))) ts =
              Err (ValueError
                     "zero-size array to reduction operation minimum which has no identity")).
  { induction ts as [|t0 ts IH]; [contradiction|]. cbn [rmap].
    destruct (coordinates t0) as [|p l] eqn:E0; [reflexivity|].
    destruct Ht as [->|Ht]; [congruence|].
    cbn [map np_min rbind]. rewrite (IH Ht). reflexivity. }
  rewrite E. reflexivity.
Qed.

Section Unsampled.

Context {B T : Type} `{Backend B T} `{Collaborators}.

(** X10.  [_redraw_attractor] raises before it changes or draws anything
    when the radius cannot be computed: [ValueError] when a stored
    trajectory has no sample, whether or not an attractor is bound, and
    [AttributeError] when every trajectory has one but no attractor is
    bound. *)
Theorem redraw_attractor_fails_cleanly (s : Plotter B) :
  (forall t, In t (trajectories s) -> coordinates t = [] ->
             _redraw_attractor s =
             (Err (ValueError
                     "zero-size array to reduction operation minimum which has no identity"),
              s)) /\
  (all_sampled (trajectories s) -> _attractor (core s) = None ->
   _redraw_attractor s =
   (Err (AttributeError "'NoneType' object has no attribute 'R'"), s)).
Proof.
  pose proof (_redraw_attractor_run s) as Hrun. split.
  - intros t Ht Et. unfold recomputed_radius in Hrun. unfold trajectories in Ht.
    rewrite (min_distance_unsampled _ t Ht Et) in Hrun. exact Hrun.
  - intros Hts Ea. unfold trajectories in Hts.
    destruct (min_distance_total _ Hts) as [d Ed].
    unfold recomputed_radius in Hrun.
    rewrite Ed, Ea in Hrun. exact Hrun.
Qed.


End Unsampled.

Lemma redraw_attractor_fails_cleanly_witness :
  _redraw_attractor empty_orbit_plotter =
  (Err (ValueError
          "zero-size array to reduction operation minimum which has no identity"),
   empty_orbit_plotter) /\
  _redraw_attractor fresh_plotter =
  (Err (AttributeError "'NoneType' object has no attribute 'R'"), fresh_plotter).
Proof.
  split.
  - apply (proj1 (redraw_attractor_fails_cleanly empty_orbit_plotter)
             (mkTrajectory [] None "None" ["#000000"] false)).
    + left. reflexivity.
    + reflexivity.
  - apply (proj2 (redraw_attractor_fails_cleanly fresh_plotter)).
    + constructor.
    + reflexivity.
Defined.


(** *** How large the attractor is drawn *)

Lemma norm_nonneg (v : Vec3) : 0 <= norm v.
Proof. unfold norm. apply sqrt_pos. Qed.



Section RadiusBounds.

Context {B T : Type} `{Backend B T} `{Collaborators}.

(** X16.  After a plotting call that returned, the attractor radius is at
    least 15% of the distance of the closest stored sample, and it does not
    exceed the distance of any stored sample that lies outside the physical
    radius of the attractor. *)
Theorem attractor_drawn_between_bounds (c : PlotCall) (s s' : Plotter B) :
  exec_call c s = (Ok tt, s') ->
  exists a x,
    _attractor (core s') = Some a /\
    _attractor_radius (core s') = Fin x /\
    (exists t p, In t (trajectories s') /\ In p (coordinates t) /\
                 (forall t' p', In t' (trajectories s') -> In p' (coordinates t') ->
                                norm p <= norm p') /\
                 15 / 100 * norm p <= x) /\
    (forall t p, In t (trajectories s') -> In p (coordinates t) ->
                 body_R a <= norm p -> x <= norm p).
Proof.
  intros E. apply exec_call_ok in E. destruct E as (c1 & t0 & x & _ & _ & Ex & Ec).
  apply recomputed_radius_formula in Ex. destruct Ex as (a & d & Ea & Hd & ->).
  exists a, (Rmax (body_R a) (15 / 100 * d)).
  unfold trajectories. rewrite Ec.
  cbn [_attractor _attractor_radius _trajectories with_attractor_radius] in *.
  split; [exact Ea|]. split; [reflexivity|].
  assert (Hne : _trajectories (appended c1 t0) <> [])
    by (cbn; destruct (_trajectories c1); discriminate).
  destruct (_trajectories (appended c1 t0)) as [|t1 ts] eqn:Ets;
    [exfalso; apply Hne; reflexivity|].
  destruct Hd as [(t & p & Ht & Hp & Ed) Hle]. subst d. split.
  - exists t, p. split; [exact Ht|]. split; [exact Hp|].
    split; [exact Hle | apply Rmax_r].
  - intros t' p' Ht' Hp' HR. pose proof (Hle t' p' Ht' Hp').
    pose proof (norm_nonneg p). apply Rmax_lub; lra.
Qed.


End RadiusBounds.

Lemma attractor_drawn_between_bounds_witness :
  exists a x,
    _attractor (core low_orbit_plotter) = Some a /\
    _attractor_radius (core low_orbit_plotter) = Fin x /\
    (exists t p, In t (trajectories low_orbit_plotter) /\ In p (coordinates t) /\
                 (forall t' p', In t' (trajectories low_orbit_plotter) ->
                                In p' (coordinates t') -> norm p <= norm p') /\
                 15 / 100 * norm p <= x) /\
    (forall t p, In t (trajectories low_orbit_plotter) -> In p (coordinates t) ->
                 body_R a <= norm p -> x <= norm p).
Proof.
  exact (attractor_drawn_between_bounds low_orbit high_orbit_plotter low_orbit_plotter
           low_orbit_plotter_run).
Defined.


(** *** When [plot_trajectory] returns, and what it has drawn by then *)

Section Returns.

Context {B T : Type} `{Backend B T} `{Collaborators}.

Lemma _redraw_attractor_returns (s : Plotter B) (x : R) :
  never_raises _clear_attractor ->
  (forall r c n o, never_raises (_draw_sphere r c n o)) ->
  recomputed_radius (core s) = Ok x ->
  exists s', _redraw_attractor s = (Ok tt, s').
Proof.
  intros Hclear Hsphere.
  unfold recomputed_radius, min_distance, _redraw_attractor, bind, get_self, lift_result.
  simpl.
  destruct (rmap (fun t => np_min (map norm (coordinates t))) (_trajectories (core s)))
    as [ds|e]; simpl; [|discriminate].
  destruct (py_min match ds with [] => [0] | _ :: _ => ds end) as [d|e];
    simpl; [|discriminate].
  destruct (_attractor (core s)) as [a|]; simpl; [|discriminate].
  intros _. unfold call_hook; simpl.
  match goal with
  | |- context [_clear_attractor ?c ?b] => destruct (Hclear c b) as ([] & b2 & ->)
  end.
  match goal with
  | |- context [_draw_sphere ?r ?c ?n ?o ?k ?b] =>
      destruct (Hsphere r c n o k b) as (tr & b3 & ->)
  end.
  eexists. reflexivity.
Qed.

Lemma __add_trajectory_steps (crd : list Vec3) (pos : option Vec3) (lbl : string)
  (cols : list string) (dsh : bool) (s : Plotter B) :
  __add_trajectory crd pos lbl cols dsh s =
  bind _redraw_attractor
    (fun _ => __plot_coordinates_and_position (mkTrajectory crd pos lbl cols dsh))
    (mkPlotter (appended (core s) (mkTrajectory crd pos lbl cols dsh)) (surface s)).
Proof. reflexivity. Qed.

Lemma plot_trajectory_returns (crd : list Vec3) (lbl color : option string)
  (trail : bool) (s : Plotter B) (a : Body) :
  never_raises _clear_attractor ->
  (forall c t, never_raises (_get_colors c t)) ->
  (forall r c n o, never_raises (_draw_sphere r c n o)) ->
  (forall cs l c d, never_raises (_plot_coordinates cs l c d)) ->
  _attractor (core s) = Some a ->
  crd <> [] ->
  all_sampled (trajectories s) ->
  fst (plot_trajectory crd lbl color trail s) = Ok tt.
Proof.
  intros Hclear Hcolors Hsphere Hline Ea Hcrd Hts.
  unfold plot_trajectory, _plot_trajectory. rewrite bind_assoc, bind_get_self.
  cbv beta. rewrite Ea. rewrite bind_assoc, bind_call_hook.
  destruct (Hcolors color trail (core s) (surface s)) as (cols & b1 & ->).
  set (t := mkTrajectory crd None (py_str lbl) cols false).
  set (s1 := mkPlotter (appended (core s) t) b1).
  assert (Hs : all_sampled (_trajectories (core s1))).
  { unfold all_sampled. cbn. apply Forall_app. split; [exact Hts|].
    constructor; [exact Hcrd | constructor]. }
  destruct (recomputed_radius_total (core s1) a Ea Hs) as [x Ex].
  destruct (_redraw_attractor_returns s1 x Hclear Hsphere Ex) as [s2 Er].
  unfold bind at 1. rewrite __add_trajectory_steps. cbn [core surface].
  fold t. fold s1. rewrite (bind_run _ _ _ _ _ Er).
  unfold __plot_coordinates_and_position. cbn [position t].
  rewrite bind_call_hook.
  match goal with
  | |- context [_plot_coordinates ?cs ?l ?c ?d ?k ?b] =>
      destruct (Hline cs l c d k b) as (tl & b4 & ->)
  end.
  reflexivity.
Qed.

(** X8.  With hooks that do not raise, [plot_trajectory] returns exactly
    when an attractor is bound, the coordinates hold at least one sample,
    and so does every trajectory stored before. *)
Theorem plot_trajectory_returns_iff (crd : list Vec3) (lbl color : option string)
  (trail : bool) (s : Plotter B) :
  never_raises _clear_attractor ->
  (forall c t, never_raises (_get_colors c t)) ->
  (forall r c n o, never_raises (_draw_sphere r c n o)) ->
  (forall cs l c d, never_raises (_plot_coordinates cs l c d)) ->
  fst (plot_trajectory crd lbl color trail s) = Ok tt <->
  (exists a, _attractor (core s) = Some a) /\ crd <> [] /\
  all_sampled (trajectories s).
Proof.
  intros Hclear Hcolors Hsphere Hline. split.
  - intros Hok.
    destruct (plot_trajectory crd lbl color trail s) as [r s'] eqn:E.
    cbn in Hok. subst r.
    destruct (_attractor (core s)) as [a|] eqn:Ea.
    + apply (exec_call_ok (CallPlotTrajectory crd lbl color trail)) in E.
      destruct E as (c1 & t & x & Hb & Hc & Ex & _).
      cbn [call_builds] in Hc. destruct Hc as [Ecrd _].
      apply binds_attractor_fields in Hb. destruct Hb as (_ & Et & _).
      apply recomputed_radius_ok in Ex. destruct Ex as (a0 & d & _ & Ed & _).
      apply min_distance_all_sampled in Ed. unfold all_sampled in *.
      cbn in Ed. rewrite Et in Ed. apply Forall_app in Ed. destruct Ed as [Hts Ht].
      split; [exists a; reflexivity|]. split; [|exact Hts].
      inversion Ht as [|? ? Hne _]. rewrite <- Ecrd. exact Hne.
    + rewrite (plot_trajectory_no_attractor crd lbl color trail s Ea) in E.
      discriminate.
  - intros ([a Ea] & Hcrd & Hts).
    apply (plot_trajectory_returns crd lbl color trail s a); assumption.
Qed.

End Returns.

Lemma recorder_never_raises :
  never_raises (_clear_attractor (B := list Drawn)) /\
  (forall c t, never_raises (_get_colors (B := list Drawn) c t)) /\
  (forall r c n o, never_raises (_draw_sphere (B := list Drawn) r c n o)) /\
  (forall cs l c d, never_raises (_plot_coordinates (B := list Drawn) cs l c d)).
Proof.
  repeat split; intros; intros c0 b0; eexists; eexists; reflexivity.
Qed.

Lemma plot_trajectory_returns_iff_witness :
  fst (plot_trajectory [mkVec 10000 0 0] (Some "low") None false high_orbit_plotter)
  = Ok tt.
Proof.
  destruct recorder_never_raises as (Hclear & Hcolors & Hsphere & Hline).
  apply (plot_trajectory_returns_iff [mkVec 10000 0 0] (Some "low") None false
           high_orbit_plotter Hclear Hcolors Hsphere Hline).
  split; [exists Earth; reflexivity|]. split; [discriminate|].
  unfold high_orbit_plotter. py_eval. constructor; [discriminate | constructor].
Defined.

(** *** What the recording backend has seen *)

Section Recorded.

Context `{Collaborators}.

Lemma recorder_redraw_attractor (s : Plotter (list Drawn)) (a : Body) (x : R) :
  _attractor (core s) = Some a ->
  recomputed_radius (core s) = Ok x ->
  _redraw_attractor s =
  (Ok tt,
   mkPlotter (with_attractor_radius (Fin x) (core s))
     (Sphere x
        (match BODY_COLORS (body_name a) with Some c => c | None => "#999999" end)
        (body_name a) None
      :: Cleared :: surface s)).
Proof.
  intros Ea.
  unfold recomputed_radius, min_distance, _redraw_attractor, bind, get_self, lift_result.
  simpl.
  destruct (rmap (fun t => np_min (map norm (coordinates t))) (_trajectories (core s)))
    as [ds|e]; simpl; [|discriminate].
  destruct (py_min match ds with [] => [0] | _ :: _ => ds end) as [d|e];
    simpl; [|discriminate].
  rewrite Ea. simpl. intros E. injection E as <-. reflexivity.
Qed.

(** X9.  A [plot_trajectory] call that returned has called, in this order
    and nothing else: [_clear_attractor]; [_draw_sphere] with the
    recomputed radius, the colour [BODY_COLORS] has for the attractor's name
    or "#999999", and that name; [_plot_coordinates] with the coordinates,
    [str(label)], the colours [_get_colors] gave, and [dashed=False]. *)
Theorem plot_trajectory_hook_calls (crd : list Vec3) (lbl color : option string)
  (trail : bool) (s s' : Plotter (list Drawn)) :
  plot_trajectory crd lbl color trail s = (Ok tt, s') ->
  exists a x,
    _attractor (core s') = Some a /\
    _attractor_radius (core s') = Fin x /\
    surface s' =
    Line crd (py_str lbl) [match color with Some c => c | None => "#000000" end] false
    :: Sphere x
         (match BODY_COLORS (body_name a) with Some c => c | None => "#999999" end)
         (body_name a) None
    :: Cleared :: surface s.
Proof.
  intros E. destruct (_attractor (core s)) as [a|] eqn:Ea.
  2:{ rewrite (plot_trajectory_no_attractor crd lbl color trail s Ea) in E.
      discriminate. }
  pose proof E as E0.
  apply (exec_call_ok (CallPlotTrajectory crd lbl color trail)) in E0.
  destruct E0 as (c1 & t & x & Hb & Hc & Ex & Ec).
  assert (c1 = core s) as ->.
  { destruct Hb as [->|(Hnone & _)]; [reflexivity | congruence]. }
  exists a, x. rewrite Ec. split; [exact Ea|]. split; [reflexivity|].
  revert E. unfold plot_trajectory, _plot_trajectory.
  rewrite bind_assoc, bind_get_self. cbv beta. rewrite Ea.
  rewrite bind_assoc, bind_call_hook. cbn [_get_colors recorder].
  unfold bind at 1. rewrite __add_trajectory_steps. cbn [core surface].
  set (cols := [match color with Some c => c | None => "#000000" end]).
  set (t1 := mkTrajectory crd None (py_str lbl) cols false).
  assert (Ex1 : exists x1, recomputed_radius (appended (core s) t1) = Ok x1).
  { apply recomputed_radius_total with a; [exact Ea|].
    apply recomputed_radius_ok in Ex. destruct Ex as (a0 & d & _ & Ed & _).
    apply min_distance_all_sampled in Ed. unfold all_sampled in *. cbn in *.
    apply Forall_app in Ed. destruct Ed as [Hts Ht]. apply Forall_app.
    split; [exact Hts|]. constructor; [|constructor].
    inversion Ht as [|? ? Hne _]. cbn [call_builds] in Hc. destruct Hc as [Ecrd _].
    cbn. rewrite <- Ecrd. exact Hne. }
  destruct Ex1 as [x1 Ex1].
  rewrite (bind_run _ _ _ _ _
             (recorder_redraw_attractor
                (mkPlotter (appended (core s) t1) (surface s)) a x1 Ea Ex1)).
  unfold __plot_coordinates_and_position. cbn [position t1].
  rewrite bind_call_hook. cbn [_plot_coordinates recorder core surface].
  unfold ret. intros E. injection E as <-. cbn [surface].
  assert (E1 : Fin x1 = Fin x).
  { cbn [core] in Ec. apply (f_equal _attractor_radius) in Ec. cbn in Ec. exact Ec. }
  injection E1 as ->. reflexivity.
Qed.

Lemma recorder_draws_trajectory (c : Core) (a : Body) (t : Trajectory)
  (b : list Drawn) :
  _attractor c = Some a ->
  position t = None \/ colors t <> [] ->
  exists r, __plot_coordinates_and_position t (mkPlotter c b) =
            (Ok r, mkPlotter c (drawn_of c a t ++ b)%list).
Proof.
  intros Ea Ht. unfold __plot_coordinates_and_position, drawn_of.
  rewrite bind_call_hook. cbn [_plot_coordinates recorder core surface].
  destruct (position t) as [p|].
  - destruct (colors t) as [|color rest] eqn:Ecols.
    + destruct Ht as [Ht|Ht]; [discriminate | exfalso; apply Ht; reflexivity].
    + unfold _plot_position. rewrite bind_assoc, bind_get_self. cbv beta.
      cbn [core]. rewrite Ea. cbn [attr_of]. unfold bind, ret, item0, call_hook.
      cbn [_draw_point recorder core surface]. eexists. reflexivity.
  - eexists. reflexivity.
Qed.

Lemma recorder_redraws (c : Core) (a : Body) (ts : list Trajectory) (b : list Drawn) :
  _attractor c = Some a ->
  Forall (fun t => position t = None \/ colors t <> []) ts ->
  for_each (fun t => bind (__plot_coordinates_and_position t) (fun _ => ret tt)) ts
    (mkPlotter c b) =
  (Ok tt, mkPlotter c (List.concat (rev (map (drawn_of c a) ts)) ++ b)%list).
Proof.
  intros Ea Hts. revert b. induction Hts as [|t ts Ht _ IH]; intros b.
  - reflexivity.
  - cbn [for_each map rev]. destruct (recorder_draws_trajectory c a t b Ea Ht) as [r Er].
    rewrite bind_assoc, (bind_run _ _ _ _ _ Er). unfold bind at 1. unfold ret at 1.
    rewrite IH, concat_app. cbn [List.concat]. rewrite app_nil_r, <- app_assoc.
    reflexivity.
Qed.

(** X17.  [_redraw] replays the stored trajectories through the hooks in
    the order of insertion, each as its line followed by its position marker
    if it has a position, and changes nothing of the core.  (An attractor is
    bound, and a trajectory with a position has a colour.) *)
Theorem redraw_replays_in_order (s : Plotter (list Drawn)) (a : Body) :
  _attractor (core s) = Some a ->
  Forall (fun t => position t = None \/ colors t <> []) (trajectories s) ->
  _redraw s =
  (Ok tt,
   mkPlotter (core s)
     (List.concat (rev (map (drawn_of (core s) a) (trajectories s))) ++ surface s)%list).
Proof.
  intros Ea Hts. unfold _redraw. rewrite bind_get_self. cbv beta.
  destruct s as [c b]. cbn [core surface trajectories] in *.
  apply recorder_redraws; assumption.
Qed.

End Recorded.

Lemma plot_trajectory_hook_calls_witness :
  exists a x,
    _attractor (core high_orbit_plotter) = Some a /\
    _attractor_radius (core high_orbit_plotter) = Fin x /\
    surface high_orbit_plotter =
    Line [mkVec 50000 0 0; mkVec 0 60000 0] "None" ["#000000"] false
    :: Sphere x
         (match BODY_COLORS (body_name a) with Some c => c | None => "#999999" end)
         (body_name a) None
    :: Cleared :: surface earth_plotter.
Proof.
  exact (plot_trajectory_hook_calls [mkVec 50000 0 0; mkVec 0 60000 0] None None false
           earth_plotter high_orbit_plotter high_orbit_plotter_run).
Defined.

Lemma redraw_replays_in_order_witness :
  _redraw three_point_orbit_plotter =
  (Ok tt,
   mkPlotter (core three_point_orbit_plotter)
     (List.concat (rev (map (drawn_of (core three_point_orbit_plotter) Sun)
                     (trajectories three_point_orbit_plotter)))
      ++ surface three_point_orbit_plotter)%list).
Proof.
  apply (redraw_replays_in_order three_point_orbit_plotter Sun).
  - reflexivity.
  - unfold three_point_orbit_plotter. py_eval.
    constructor; [right; discriminate | constructor].
Defined.

(** *** Calls that raise half way *)

Section HalfWay.

Context {B T : Type} `{Backend B T} `{Collaborators}.

(** X12.  [plot] and [plot_body_orbit] ask for the colours first and bind
    the attractor second: when [_get_colors] raises, either call raises the
    same error with the core untouched; and when a later step raises before
    the trajectory is appended (the plane change or the sampling of the
    orbit, the period of the body) a previously unbound attractor stays
    bound to the orbit's attractor, or to the body's parent, with no
    trajectory stored. *)
Theorem plot_binds_attractor_before_sampling (s : Plotter B) :
  (forall orbit lbl color trail e b',
      _get_colors color trail (core s) (surface s) = (Err e, b') ->
      plot orbit lbl color trail s = (Err e, mkPlotter (core s) b')) /\
  (forall body epoch lbl color trail e b',
      _get_colors
        (match color with None => BODY_COLORS (body_name body) | Some c => Some c end)
        trail (core s) (surface s) = (Err e, b') ->
      plot_body_orbit body epoch lbl color trail s = (Err e, mkPlotter (core s) b')) /\
  (forall orbit lbl color trail cols e b',
      _attractor (core s) = None ->
      _get_colors color trail (core s) (surface s) = (Ok cols, b') ->
      change_plane orbit (_plane (core s)) = Err e \/
      (exists orbit', change_plane orbit (_plane (core s)) = Ok orbit' /\
                      orbit_sample orbit' (_num_points (core s)) = Err e) ->
      plot orbit lbl color trail s =
      (Err e, mkPlotter (with_attractor (Some (orbit_attractor orbit)) (core s)) b')) /\
  (forall body epoch lbl color trail cols e b',
      _attractor (core s) = None ->
      _get_colors
        (match color with None => BODY_COLORS (body_name body) | Some c => Some c end)
        trail (core s) (surface s) = (Ok cols, b') ->
      mean_period body epoch = Err e ->
      plot_body_orbit body epoch lbl color trail s =
      (Err e, mkPlotter (with_attractor (body_parent body) (core s)) b')).
Proof.
  split; [|split; [|split]].
  - intros orbit lbl color trail e b' Ecol. unfold plot, _plot.
    rewrite bind_assoc, bind_call_hook, Ecol. reflexivity.
  - intros body epoch lbl color trail e b' Ecol.
    unfold plot_body_orbit, _plot_body_orbit. cbv zeta.
    rewrite bind_assoc, bind_call_hook, Ecol. reflexivity.
  - intros orbit lbl color trail cols e b' Ea Ecol Hfail. unfold plot, _plot.
    rewrite bind_assoc, bind_call_hook, Ecol.
    rewrite bind_assoc, bind_set_attractor. cbn [core surface]. rewrite Ea.
    rewrite bind_assoc, bind_get_self. cbv beta.
    cbn [core with_attractor _plane _num_points].
    rewrite bind_assoc, bind_lift_result.
    destruct Hfail as [->|(orbit' & -> & Es)]; [reflexivity|].
    rewrite bind_assoc, bind_lift_result, Es. reflexivity.
  - intros body epoch lbl color trail cols e b' Ea Ecol Ep.
    unfold plot_body_orbit, _plot_body_orbit. cbv zeta.
    rewrite bind_assoc, bind_call_hook, Ecol.
    rewrite bind_assoc, bind_set_attractor. cbn [core surface]. rewrite Ea.
    rewrite bind_assoc, bind_lift_result, Ep. reflexivity.
Qed.

(** X14.  [_plot_position] gives the marker a radius that is zero or
    negative when the position lies on or inside the physical radius of the
    attractor; it raises without drawing when no attractor is bound
    ([AttributeError]) or when the colour sequence is empty
    ([IndexError]). *)
Theorem position_marker_edge_cases (position : Vec3) (lbl : string) (s : Plotter B) :
  (forall a color rest,
      _attractor (core s) = Some a ->
      norm position <= body_R a ->
      exists r, r <= 0 /\
                _plot_position position lbl (color :: rest) s =
                call_hook (_draw_point r color lbl (Some position)) s) /\
  (forall cols,
      _attractor (core s) = None ->
      _plot_position position lbl cols s =
      (Err (AttributeError "'NoneType' object has no attribute 'R'"), s)) /\
  (forall a,
      _attractor (core s) = Some a ->
      _plot_position position lbl [] s =
      (Err (IndexError "list index out of range"), s)).
Proof.
  split; [|split].
  - intros a color rest Ea Hin.
    exists (length_min2 (length_scale (_attractor_radius (core s)) (1 / 2))
              ((norm position - body_R a) * (1 / 2))).
    split.
    + destruct (_attractor_radius (core s)) as [A|]; cbn [length_scale length_min2].
      * rewrite py_min2_Rmin.
        apply Rle_trans with ((norm position - body_R a) * (1 / 2));
          [apply Rmin_r | lra].
      * lra.
    + unfold _plot_position. rewrite bind_get_self. cbv beta. rewrite Ea.
      reflexivity.
  - intros cols Ea. unfold _plot_position. rewrite bind_get_self. cbv beta.
    rewrite Ea. reflexivity.
  - intros a Ea. unfold _plot_position. rewrite bind_get_self. cbv beta.
    rewrite Ea. reflexivity.
Qed.

(** X13.  Under a frame whose third vector is orthogonal to the first two,
    [_project] returns for every point its dot products with the first and
    with the second vector, so that moving the points along the third
    vector does not change the result; the plotter is left as it was.
    Before any frame is stored the attribute [_frame] is missing, and
    [_project] raises the [AttributeError] that names the plotter's class
    and the attribute. *)
Theorem project_drops_normal_component (rr : list Vec3) (s : Plotter B) :
  (forall p q w,
      _frame (core s) = Some (p, q, w) ->
      dot w p = 0 -> dot w q = 0 ->
      _project rr s = (Ok (map (fun r => dot r p) rr, map (fun r => dot r q) rr), s) /\
      forall k, _project (map (fun r => vadd r (vscale k w)) rr) s = _project rr s) /\
  (_frame (core s) = None ->
   _project rr s =
   (Err (AttributeError ("'" ++ class_name ++ "' object has no attribute '_frame'")),
    s)).
Proof.
  split.
  - intros p q w Ef Hwp Hwq.
    assert (Hgen : forall l,
               _project l s =
               (Ok (map (fun r => dot r p) l, map (fun r => dot r q) l), s)).
    { intros l. unfold _project, get_frame. rewrite bind_assoc, bind_get_self, Ef.
      unfold bind, ret. f_equal. f_equal. f_equal.
      - rewrite map_map. apply map_ext. intros r.
        rewrite dot_vsub_l, dot_vscale_l, Hwp. ring.
      - rewrite map_map. apply map_ext. intros r.
        rewrite dot_vsub_l, dot_vscale_l, Hwq. ring. }
    split; [apply Hgen|].
    intros k. rewrite !Hgen. f_equal. f_equal. f_equal.
    + rewrite map_map. apply map_ext. intros r.
      rewrite dot_vadd_l, dot_vscale_l, Hwp. ring.
    + rewrite map_map. apply map_ext. intros r.
      rewrite dot_vadd_l, dot_vscale_l, Hwq. ring.
  - intros Ef. unfold _project, get_frame. rewrite bind_assoc, bind_get_self, Ef.
    reflexivity.
Qed.

End HalfWay.

Lemma plot_binds_attractor_before_sampling_witness :
  plot sample_orbit None None false base_plotter =
  (Err (NotImplementedError ""), base_plotter) /\
  plot_body_orbit Mars 0 None None false base_plotter =
  (Err (NotImplementedError ""), base_plotter) /\
  @plot _ _ recorder strict_collaborators sample_orbit None None false
    ecliptic_plotter =
  (Err (OtherError "plane not available"),
   mkPlotter (with_attractor (Some Earth) (core ecliptic_plotter)) []) /\
  @plot_body_orbit _ _ recorder strict_collaborators Mars 0 None None false
    ecliptic_plotter =
  (Err (ValueError "no mean elements"),
   mkPlotter (with_attractor (Some Sun) (core ecliptic_plotter)) []).
Proof.
  destruct (plot_binds_attractor_before_sampling base_plotter) as (Hplot & Hbody & _).
  destruct (@plot_binds_attractor_before_sampling _ _ recorder strict_collaborators
              ecliptic_plotter) as (_ & _ & Hplane & Hperiod).
  split; [|split; [|split]].
  - apply Hplot. reflexivity.
  - apply Hbody. reflexivity.
  - apply (Hplane sample_orbit None None false ["#000000"]).
    + reflexivity.
    + reflexivity.
    + left. reflexivity.
  - apply (Hperiod Mars 0 None None false ["#000000"]).
    + reflexivity.
    + reflexivity.
    + reflexivity.
Defined.

Lemma position_marker_edge_cases_witness :
  (exists r, r <= 0 /\
             _plot_position (mkVec 6000 0 0) "inside" ["red"] high_orbit_plotter =
             call_hook (_draw_point r "red" "inside" (Some (mkVec 6000 0 0)))
               high_orbit_plotter) /\
  _plot_position (mkVec 6000 0 0) "inside" ["red"] fresh_plotter =
  (Err (AttributeError "'NoneType' object has no attribute 'R'"), fresh_plotter) /\
  _plot_position (mkVec 6000 0 0) "inside" [] high_orbit_plotter =
  (Err (IndexError "list index out of range"), high_orbit_plotter).
Proof.
  destruct (position_marker_edge_cases (mkVec 6000 0 0) "inside" high_orbit_plotter)
    as (Hin & _ & Hcols).
  destruct (position_marker_edge_cases (mkVec 6000 0 0) "inside" fresh_plotter)
    as (_ & Hnone & _).
  split; [|split].
  - apply (Hin Earth "red" []); [reflexivity|].
    rewrite norm_x_axis by lra. cbn. lra.
  - apply Hnone. reflexivity.
  - apply (Hcols Earth). reflexivity.
Defined.

Lemma project_drops_normal_component_witness :
  _project [mkVec 3 4 7; mkVec (-2) 5 1] framed_plotter =
  (Ok (map (fun r => dot r e_x) [mkVec 3 4 7; mkVec (-2) 5 1],
       map (fun r => dot r e_y) [mkVec 3 4 7; mkVec (-2) 5 1]),
   framed_plotter) /\
  _project [mkVec 3 4 7; mkVec (-2) 5 1] fresh_plotter =
  (Err (AttributeError "'RecordingPlotter' object has no attribute '_frame'"),
   fresh_plotter).
Proof.
  split.
  - apply (proj1 (project_drops_normal_component [mkVec 3 4 7; mkVec (-2) 5 1]
                    framed_plotter) e_x e_y e_z framed_plotter_frame).
    + unfold dot, e_z, e_x. cbn. ring.
    + unfold dot, e_z, e_y. cbn. ring.
  - exact (proj2 (project_drops_normal_component [mkVec 3 4 7; mkVec (-2) 5 1]
                    fresh_plotter) eq_refl).
Defined.

(** *** The attractor after a call that returned *)

Section BoundAttractor.

Context {B T : Type} `{Backend B T} `{Collaborators}.

Lemma __add_trajectory_then_attractor (crd : list Vec3) (pos : option Vec3)
  (lbl : string) (cols : list string) (dsh : bool) (s s' : Plotter B) :
  bind (__add_trajectory crd pos lbl cols dsh) (fun _ => ret tt) s = (Ok tt, s') ->
  exists a, _attractor (core s) = Some a /\ _attractor (core s') = Some a.
Proof.
  intros E. apply bind_ok in E. destruct E as (r & s1 & E1 & E2).
  injection E2 as <-. apply __add_trajectory_ok in E1.
  destruct E1 as (x & Ex & ->). apply recomputed_radius_ok in Ex.
  destruct Ex as (a & d & Ea & _). exists a. cbn in *. auto.
Qed.

(** X18.  After [plot] has returned the bound attractor is the very object
    the orbit has as its attractor; after [plot_body_orbit] has returned it
    is the parent of the body, so that for a body without a parent
    [plot_body_orbit] never returns. *)
Theorem plot_leaves_its_attractor_bound (s s' : Plotter B) :
  (forall orbit lbl color trail,
      plot orbit lbl color trail s = (Ok tt, s') ->
      obj_is (Some (orbit_attractor orbit)) (_attractor (core s')) = true) /\
  (forall body epoch lbl color trail,
      plot_body_orbit body epoch lbl color trail s = (Ok tt, s') ->
      body_parent body <> None /\
      obj_is (body_parent body) (_attractor (core s')) = true).
Proof.
  split.
  - intros orbit lbl color trail. unfold plot, _plot.
    rewrite bind_assoc, bind_call_hook.
    destruct (_get_colors color trail (core s) (surface s)) as [[cols|e] b];
      [|discriminate].
    rewrite bind_assoc, bind_set_attractor. cbn [core surface].
    destruct (_attractor (core s)) as [cur|] eqn:Ea.
    + destruct (obj_is (Some (orbit_attractor orbit)) (Some cur)) eqn:Eo;
        [|discriminate].
      rewrite bind_assoc, bind_get_self. cbv beta. cbn [core].
      rewrite bind_assoc, bind_lift_result.
      destruct (change_plane orbit (_plane (core s))) as [orbit'|e]; [|discriminate].
      rewrite bind_assoc, bind_lift_result.
      destruct (orbit_sample orbit' (_num_points (core s))) as [crd|e];
        [|discriminate].
      intros E. apply __add_trajectory_then_attractor in E.
      destruct E as (a & Ea1 & ->). cbn [core] in Ea1.
      assert (a = cur) by congruence. subst a. exact Eo.
    + rewrite bind_assoc, bind_get_self. cbv beta.
      cbn [core with_attractor _plane _num_points].
      rewrite bind_assoc, bind_lift_result.
      destruct (change_plane orbit (_plane (core s))) as [orbit'|e]; [|discriminate].
      rewrite bind_assoc, bind_lift_result.
      destruct (orbit_sample orbit' (_num_points (core s))) as [crd|e];
        [|discriminate].
      intros E. apply __add_trajectory_then_attractor in E.
      destruct E as (a & Ea1 & ->). cbn in Ea1. injection Ea1 as <-.
      cbn. apply Nat.eqb_refl.
  - intros body epoch lbl color trail. unfold plot_body_orbit, _plot_body_orbit.
    cbv zeta. rewrite bind_assoc, bind_call_hook.
    destruct (_get_colors _ trail (core s) (surface s)) as [[cols|e] b];
      [|discriminate].
    rewrite bind_assoc, bind_set_attractor. cbn [core surface].
    destruct (_attractor (core s)) as [cur|] eqn:Ea.
    + destruct (obj_is (body_parent body) (Some cur)) eqn:Eo; [|discriminate].
      rewrite bind_assoc, bind_lift_result.
      destruct (mean_period body epoch) as [period|e]; [|discriminate].
      rewrite bind_assoc, bind_get_self. cbv beta. cbn [core].
      rewrite bind_assoc, bind_lift_result.
      destruct (time_range epoch (_num_points (core s)) (epoch + period))
        as [epochs|e]; [|discriminate].
      rewrite bind_assoc, bind_lift_result.
      destruct (ephem_sample body epochs (body_parent body) (_plane (core s)))
        as [crd|e]; [|discriminate].
      rewrite bind_assoc, bind_array_item0.
      destruct crd as [|r0 crd]; [discriminate|].
      intros E. apply __add_trajectory_then_attractor in E.
      destruct E as (a & Ea1 & ->). cbn [core] in Ea1.
      assert (a = cur) by congruence. subst a.
      split; [|exact Eo]. destruct (body_parent body); discriminate.
    + rewrite bind_assoc, bind_lift_result.
      destruct (mean_period body epoch) as [period|e]; [|discriminate].
      rewrite bind_assoc, bind_get_self. cbv beta.
      cbn [core with_attractor _plane _num_points].
      rewrite bind_assoc, bind_lift_result.
      destruct (time_range epoch (_num_points (core s)) (epoch + period))
        as [epochs|e]; [|discriminate].
      rewrite bind_assoc, bind_lift_result.
      destruct (ephem_sample body epochs (body_parent body) (_plane (core s)))
        as [crd|e]; [|discriminate].
      rewrite bind_assoc, bind_array_item0.
      destruct crd as [|r0 crd]; [discriminate|].
      intros E. apply __add_trajectory_then_attractor in E.
      destruct E as (a & Ea1 & ->). cbn in Ea1. rewrite Ea1.
      split; [discriminate | cbn; apply Nat.eqb_refl].
Qed.

End BoundAttractor.

Lemma sample_orbit_plotter_run :
  plot sample_orbit None None false fresh_plotter = (Ok tt, sample_orbit_plotter).
Proof.
  unfold sample_orbit_plotter. py_eval. py_compare. reflexivity.
Qed.

Lemma plot_leaves_its_attractor_bound_witness :
  obj_is (Some (orbit_attractor sample_orbit)) (_attractor (core sample_orbit_plotter))
  = true /\
  body_parent Earth <> None /\
  obj_is (body_parent Earth) (_attractor (core three_point_orbit_plotter)) = true.
Proof.
  split.
  - exact (proj1 (plot_leaves_its_attractor_bound fresh_plotter sample_orbit_plotter)
             sample_orbit None None false sample_orbit_plotter_run).
  - exact (proj2 (plot_leaves_its_attractor_bound three_point_plotter
                    three_point_orbit_plotter)
             Earth 0 None None false three_point_orbit_plotter_run).
Defined.

(** *** The radius once a trajectory is plotted *)

Section Plotted.

Context {B T : Type} `{Backend B T} `{Collaborators}.


End Plotted.

